(** * tsundoku: importer, experiment preparation and classifier

    A shallow embedding of the parts of
    [tsundoku/data/importer.py], [tsundoku/features/prepare_experiment.py]
    and [tsundoku/models/classifier.py] that the specification talks about,
    with the properties proved about them.

    Conventions.  A pandas cell that may hold NaN/None is an [option]; a
    data frame is the list of its rows in index order; a Python exception
    is the [Raise] branch of [result]; files are values of a finite map
    from path to file.  An [int64] cell is a [Z], and a sum of such cells
    wraps around; a floating-point cell is the rational it denotes, and a
    Python [float] a binary64 number.  Third-party behaviour that the
    sources rely on (regular expressions, the tokenizer, graph-tool,
    scikit-learn's splitter, the fitted model, the order of a Python set
    and of the groups dask returns) is taken as a parameter of the
    definitions that use it. *)

From Stdlib Require Import ZArith QArith Ascii String List Bool Lia.
From Stdlib Require SpecFloat.
From stdpp Require Import gmap strings list sorting pretty.

Local Open Scope Z_scope.
Local Open Scope string_scope.
Local Open Scope list_scope.
Local Open Scope stdpp_scope.

(** ** Python exceptions and the error monad *)

Module Py.

Inductive exn : Type :=
| ZlibError        (* zlib.error *)
| AttributeError
| TypeError
| KeyError
| ValueError
| IndexError
| FileNotFoundError.

Inductive result (A : Type) : Type :=
| Ok (a : A)
| Raise (e : exn).
Arguments Ok {A} a.
Arguments Raise {A} e.

Definition bind {A B} (m : result A) (k : A → result B) : result B :=
  match m with
  | Ok a => k a
  | Raise e => Raise e
  end.

(** A [for] loop whose body may raise, collecting one value per item. *)
Fixpoint for_each {A B} (body : A → result B) (l : list A) : result (list B) :=
  match l with
  | [] => Ok []
  | x :: l' =>
      bind (body x) (fun y => bind (for_each body l') (fun ys => Ok (y :: ys)))
  end.

(** A [for] loop whose body updates a state and may raise. *)
Fixpoint for_fold {A S} (body : S → A → result S) (l : list A) (s : S) : result S :=
  match l with
  | [] => Ok s
  | x :: l' => bind (body s x) (for_fold body l')
  end.

(** Indexing a frame by a list of booleans: [frame[mask]]. *)
Fixpoint mask_select {A} (l : list A) (mask : list bool) : list A :=
  match l, mask with
  | x :: l', b :: mask' => if b then x :: mask_select l' mask' else mask_select l' mask'
  | _, _ => []
  end.

(** Paths are strings.  [rfind] is [str.rfind] for one character,
    [basename] the last component of a path, [path </> name] the join. *)
Fixpoint rfind (c : ascii) (s : string) : option nat :=
  match s with
  | EmptyString => None
  | String c' s' =>
      match rfind c s' with
      | Some i => Some (S i)
      | None => if decide (c = c') then Some 0%nat else None
      end
  end.

Definition basename (path : string) : string :=
  match rfind "/" path with
  | Some i => substring (S i) (String.length path - S i) path
  | None => path
  end.

Definition path_join (path name : string) : string := path +:+ "/" +:+ name.

End Py.

Infix "</>" := Py.path_join (at level 40, left associativity) : stdpp_scope.

#[export] Instance result_bind : MBind Py.result := fun A B k m => Py.bind m k.
#[export] Instance result_ret : MRet Py.result := @Py.Ok.
#[export] Instance result_fmap : FMap Py.result :=
  fun A B f m => match m with Py.Ok a => Py.Ok (f a) | Py.Raise e => Py.Raise e end.

(** ** The tweet importer ([tsundoku/data/importer.py]) *)

Module Importer.
Import Py.

(** A compiled regular expression, seen through [search]: whether the
    pattern matches somewhere in the string. *)
Definition Pattern : Type := string → bool.

(** One row of the frame read from a raw file. *)
Record tweet : Type := {
  tw_id : option Z;                  (* column "id" *)
  tw_text : option string;           (* column "text" *)
  user_location : option string;     (* column "user.location" *)
  user_description : option string;  (* column "user.description" *)
  user_name : option string;         (* column "user.name" *)
}.

(** A frame: whether it has a "text" column at all, and its rows.  The
    other four columns are taken to be present and to hold strings, so
    that pandas gives them the object dtype and [.str] applies; their
    cells may be missing. *)
Record DataFrame : Type := {
  has_text : bool;
  rows : list tweet;
}.

Definition empty (df : DataFrame) : bool :=
  match rows df with [] => true | _ => false end.

(** *** The Aho-Corasick automaton

    [ahocorasick.Automaton] as the map from key to value; [iter] reports
    [(end_index, value)] for every occurrence of every key, by increasing
    end index and, at one end index, from the longest key down. *)

Definition Automaton : Type := gmap string string.

Definition add_word (key value : string) (A : Automaton) : Automaton :=
  if decide (key = "") then A else <[key := value]> A.

Definition automaton_len (A : Automaton) : nat := size A.

Definition matches_ending_at (A : Automaton) (s : string) (e : nat)
  : list (nat * string) :=
  omap (fun len => (fun v => (e, v)) <$> A !! substring (S e - len) len s)
       (rev (seq 1 (S e))).

Definition iter (A : Automaton) (s : string) : list (nat * string) :=
  concat (map (matches_ending_at A s) (seq 0 (String.length s))).

(** [set(pluck(1, automaton.iter(text)))] *)
Definition findings (A : Automaton) (s : string) : gset string :=
  list_to_set (map snd (iter A s)).

(** *** The importer object *)

Record TweetImporter : Type := {
  location_accept_unknown : bool;          (* self.location["accept_unknown"] *)
  location_patterns : option Pattern;      (* self.location["patterns"] *)
  location_blacklist : option Pattern;     (* self.location["blacklist"] *)
  automaton : Automaton;                   (* self.automaton *)
  terms_patterns : option (list string);   (* self.terms["patterns"] *)
  terms_blacklist : option (list string);  (* self.terms["blacklist"] *)
  tokenize : option string → list string;  (* self.tokenize *)
}.

(** [configure_terms], given what [read_list] returned for each file of
    [term_files] and of [blacklist_files] ([None]: the key is not
    configured). *)
Definition add_words (value : string) (files : list (list string))
  (A : Automaton) : Automaton :=
  fold_left (fun A terms => fold_left (fun A term => add_word term value A) terms A)
            files A.

Definition configure_terms (term_files blacklist_files : option (list (list string)))
  : Automaton * option (list string) * option (list string) :=
  let A : Automaton := ∅ in
  let '(A, patterns) :=
    match term_files with
    | Some files => (add_words "search-term" files A, Some (concat files))
    | None => (A, None)
    end in
  let '(A, blacklist) :=
    match blacklist_files with
    | Some files => (add_words "rejected-term" files A, Some (concat files))
    | None => (A, None)
    end in
  (A, patterns, blacklist).

(** *** [filter_dataframe] *)

(** [df["user.location"].str.contains(p) == True]: a missing location
    compares unequal to [True]. *)
Definition str_contains (p : Pattern) (cell : option string) : bool :=
  match cell with
  | Some s => p s
  | None => false
  end.

Definition location_flag (self : TweetImporter) (r : tweet) : bool :=
  let flag := bool_decide (is_Some (tw_id r)) in
  let flag :=
    if negb (location_accept_unknown self) then
      match location_patterns self with
      | Some p => flag && str_contains p (user_location r)
      | None => flag
      end
    else flag in
  let flag :=
    match location_blacklist self with
    | Some b => flag && negb (str_contains b (user_location r))
    | None => flag
    end in
  flag.

(** The body of the loop over [candidates.itertuples()]. *)
Definition scan (self : TweetImporter) (df : DataFrame) (r : tweet)
  : result (gset string) :=
  if has_text df then
    match tw_text r with
    | Some s => Ok (findings (automaton self) s)
    | None => Raise TypeError
    end
  else Raise AttributeError.

Definition keyword_policy (self : TweetImporter) (found : gset string) : bool :=
  match terms_patterns self with
  | Some _ =>
      bool_decide ("search-term" ∈ found) && negb (bool_decide ("rejected-term" ∈ found))
  | None => negb (bool_decide ("rejected-term" ∈ found))
  end.

Definition keyword_row (self : TweetImporter) (df : DataFrame) (r : tweet)
  : result bool :=
  found ← scan self df r; Ok (keyword_policy self found).

Definition candidates (self : TweetImporter) (df : DataFrame) : list tweet :=
  List.filter (location_flag self) (rows df).

Definition filter_dataframe (self : TweetImporter) (df : DataFrame)
  : result DataFrame :=
  let cands := candidates self df in
  if (0 <? automaton_len (automaton self))%nat then
    res ← for_each (keyword_row self df) cands;
    Ok {| has_text := has_text df; rows := mask_select cands res |}
  else
    Ok {| has_text := has_text df; rows := cands |}.

(** *** Reading and importing files *)

(** A raw capture on disk: either its decompression fails, or it parses
    into a frame. *)
Inductive raw_file : Type :=
| Corrupted
| Lines (df : DataFrame).

(** A row of the frame written by the importer: the row and its three
    token columns. *)
Record imported : Type := {
  source : tweet;
  tweet_tokens : list string;              (* "tweet.tokens" *)
  user_description_tokens : list string;   (* "user.description_tokens" *)
  user_name_tokens : list string;          (* "user.name_tokens" *)
}.

(** The raw files by path, and the files written so far by path. *)
Abbreviation raw_store := (gmap string raw_file).
Abbreviation json_store := (gmap string (list imported)).

(** [pd.read_json(filename, lines=True)] *)
Definition read_json (raw : raw_store) (filename : string) : result DataFrame :=
  match raw !! filename with
  | None => Raise FileNotFoundError
  | Some Corrupted => Raise ZlibError
  | Some (Lines df) => Ok df
  end.

Definition read_tweet_dataframe (self : TweetImporter) (raw : raw_store)
  (filename : string) : result DataFrame :=
  df ← read_json raw filename;
  if negb (empty df) then filter_dataframe self df else Ok df.

(** [Path(filename).stem]: the last component without its last suffix. *)
Definition stem (path : string) : string :=
  let name := basename path in
  match rfind "." name with
  | Some i =>
      if ((0 <? i) && (i <? String.length name - 1))%nat then substring 0 i name else name
  | None => name
  end.

Definition target_file (i : nat) (filename target_path : string)
  (file_prefix : option string) : string :=
  match file_prefix with
  | Some prefix => target_path </> (prefix +:+ "." +:+ pretty i +:+ ".json.gz")
  | None => target_path </> (stem filename +:+ "." +:+ pretty i +:+ ".json.gz")
  end.

Definition add_tokens (self : TweetImporter) (r : tweet) : imported :=
  {| source := r;
     tweet_tokens := tokenize self (tw_text r);
     user_description_tokens := tokenize self (user_description r);
     user_name_tokens := tokenize self (user_name r) |}.

(** [_read_file]: the number of records imported from the file and the
    written files afterwards. *)
Definition _read_file (self : TweetImporter) (raw : raw_store) (i : nat)
  (filename target_path : string) (file_prefix : option string)
  (written : json_store) : result (nat * json_store) :=
  match read_tweet_dataframe self raw filename with
  | Raise ZlibError => Ok (0%nat, written)
  | Raise e => Raise e
  | Ok df =>
      if negb (has_text df) || empty df then Ok (0%nat, written)
      else
        let target := target_file i filename target_path file_prefix in
        let out := map (add_tokens self) (rows df) in
        Ok (length (rows df), <[target := out]> written)
  end.

(** The tasks of [import_files], one per [enumerate(file_names)] item,
    run one after the other; the result is the logged sum of their counts
    and the written files. *)
Fixpoint run_tasks (self : TweetImporter) (raw : raw_store) (i : nat)
  (file_names : list string) (target_path : string) (file_prefix : option string)
  (written : json_store) : result (list nat * json_store) :=
  match file_names with
  | [] => Ok ([], written)
  | f :: rest =>
      '(n, written) ← _read_file self raw i f target_path file_prefix written;
      '(ns, written) ← run_tasks self raw (S i) rest target_path file_prefix written;
      Ok (n :: ns, written)
  end.

Definition import_files (self : TweetImporter) (raw : raw_store)
  (file_names : list string) (target_path : string) (file_prefix : option string)
  (written : json_store) : result (nat * json_store) :=
  '(counts, written) ← run_tasks self raw 0 file_names target_path file_prefix written;
  Ok (sum_list counts, written).

(** The frame a file is imported from when [_read_file] gets past its two
    early returns. *)
Definition processed (self : TweetImporter) (raw : raw_store) (filename : string)
  : option DataFrame :=
  match read_tweet_dataframe self raw filename with
  | Ok df => if negb (has_text df) || empty df then None else Some df
  | Raise _ => None
  end.

(** What the keyword stage decides for a row whose text is a string. *)
Definition keyword_keep (self : TweetImporter) (r : tweet) : bool :=
  match tw_text r with
  | Some s => keyword_policy self (findings (automaton self) s)
  | None => false
  end.


(** A pattern for the examples: what [re.compile(p, re.IGNORECASE)] finds
    when [p] is a plain word. *)
Definition to_lower (c : ascii) : ascii :=
  let n := nat_of_ascii c in
  if ((65 <=? n) && (n <=? 90))%nat then ascii_of_nat (n + 32) else c.

Fixpoint lower (s : string) : string :=
  match s with
  | EmptyString => EmptyString
  | String c s' => String (to_lower c) (lower s')
  end.

Definition re_word (p : string) : Pattern :=
  fun s => bool_decide (is_Some (index 0 (lower p) (lower s))).

End Importer.

(** *** Example importers and batches *)

Module ImporterExamples.
Import Importer.

Definition mk_tweet (i : Z) (text location : string) : tweet :=
  {| tw_id := Some i; tw_text := Some text; user_location := Some location;
     user_description := None; user_name := None |}.

(** A row without id, text or location, as a deletion notice gives. *)
Definition notice : tweet :=
  {| tw_id := None; tw_text := None; user_location := None;
     user_description := None; user_name := None |}.

Definition importer_of (accept_unknown : bool) (gazetteer blacklist : option Pattern)
  (term_files blacklist_files : option (list (list string))) : TweetImporter :=
  let '(A, patterns, rejected) := configure_terms term_files blacklist_files in
  {| location_accept_unknown := accept_unknown;
     location_patterns := gazetteer;
     location_blacklist := blacklist;
     automaton := A;
     terms_patterns := patterns;
     terms_blacklist := rejected;
     tokenize := fun cell => match cell with Some s => [s] | None => [] end |}.

(** Search term "alpha", no blacklisted term, no location filter. *)
Definition alpha_only : TweetImporter :=
  importer_of true None None (Some [["alpha"]]) None.

(** Search term "alpha" and blacklisted term "beta". *)
Definition alpha_beta : TweetImporter :=
  importer_of true None None (Some [["alpha"]]) (Some [["beta"]]).

(** No search term, blacklisted term "beta". *)
Definition beta_only : TweetImporter :=
  importer_of true None None None (Some [["beta"]]).

(** Gazetteer "york", blacklist "new jersey", unknown locations refused or
    accepted; no keyword. *)
Definition york_strict : TweetImporter :=
  importer_of false (Some (re_word "york")) (Some (re_word "new jersey")) None None.

Definition york_lenient : TweetImporter :=
  importer_of true (Some (re_word "york")) (Some (re_word "new jersey")) None None.

Definition t_alpha : tweet := mk_tweet 1 "an alpha release" "New York".
Definition t_plain : tweet := mk_tweet 2 "nothing to see" "Paris".
Definition t_both : tweet := mk_tweet 3 "alpha and beta" "York, New Jersey".

Definition batch : DataFrame :=
  {| has_text := true; rows := [t_alpha; notice; t_plain; t_both] |}.

(** Three raw files: a corrupted one, an empty one and a valid one. *)
Definition raw3 : gmap string raw_file :=
  {[ "raw/a.json.gz" := Corrupted;
     "raw/b.json.gz" := Lines {| has_text := false; rows := [] |};
     "raw/c.json.gz" := Lines batch ]}.

Definition files3 : list string := ["raw/a.json.gz"; "raw/b.json.gz"; "raw/c.json.gz"].

End ImporterExamples.
(** ** The classifier ([tsundoku/models/classifier.py]) *)

Module Classifier.
Import Py.

(** A cell of a probability matrix is a finite floating-point number; it
    is written as the rational it denotes, on which the comparisons of
    numpy are exact.  [<] is decided by [Qltb]. *)
Definition Qltb (x y : Q) : bool := negb (Qle_bool y x).

Definition Qmaxb (x y : Q) : Q := if Qltb x y then y else x.

(** A Python [float] is a binary64 number ([SpecFloat.spec_float]); a
    finite one with sign [s], mantissa [m] and exponent [e] denotes
    [(-1)^s * m * 2^e]. *)
Definition value (s : bool) (m : positive) (e : Z) : Q :=
  ((if s then -1 else 1) * inject_Z (Z.pos m) * 2 ^ e)%Q.

(** The element type of a probability matrix: xgboost predicts in
    [float32], the calibrated classifier in [float64]. *)
Inductive dtype : Type := float32 | float64.

(** numpy compares an array with a Python [float] in the element type of
    the array: the scalar is first rounded to it, to nearest, ties to
    even. *)
Definition astype (d : dtype) (x : SpecFloat.spec_float) : SpecFloat.spec_float :=
  match d, x with
  | float32, SpecFloat.S754_finite s m e => SpecFloat.binary_round 24 128 s m e
  | _, _ => x
  end.


Definition lt_float (cell : Q) (threshold : SpecFloat.spec_float) : bool :=
  match threshold with
  | SpecFloat.S754_zero _ => Qltb cell 0
  | SpecFloat.S754_infinity s => negb s
  | SpecFloat.S754_nan => false
  | SpecFloat.S754_finite s m e => Qltb cell (value s m e)
  end.

(** The fitted object: the classes of the label encoder
    ([self.xgb._le.classes_]), the probability matrix the boosted model
    predicts and, once calibrated, the one the calibrated model predicts;
    a matrix is the list of its rows. *)
Record PartiallyLabeledXGB (Features : Type) : Type := {
  classes_ : list string;
  xgb_predict_proba : Features → list (list Q);
  calibrated_clf : option (Features → list (list Q));
}.
Arguments classes_ {Features} _.
Arguments xgb_predict_proba {Features} _ _.
Arguments calibrated_clf {Features} _.

Definition predict_proba {Features} (self : PartiallyLabeledXGB Features)
  (X : Features) : list (list Q) :=
  match calibrated_clf self with
  | Some calibrated => calibrated X
  | None => xgb_predict_proba self X
  end.

Definition predict_proba_dtype {Features} (self : PartiallyLabeledXGB Features) : dtype :=
  match calibrated_clf self with
  | Some _ => float64
  | None => float32
  end.

(** One row of the frame [classify_and_label] returns. *)
Record labelled : Type := {
  probabilities : list Q;      (* one column per class *)
  max_probability : Q;
  label : option string;       (* a class, or the non-labeled value *)
  source : string;
}.

(** [results.max(axis=1)] on a row with first cell [p]. *)
Definition row_max (p : Q) (ps : list Q) : Q := fold_left Qmaxb ps p.

(** [idxmax(axis=1)]: the position of the first cell that holds the
    maximum; [j] is the position of the head of [ps], [best_j] and [best]
    the best seen so far. *)
Fixpoint argmax_from (j best_j : nat) (best : Q) (ps : list Q) : nat :=
  match ps with
  | [] => best_j
  | p :: ps' =>
      if Qltb best p then argmax_from (S j) j p ps'
      else argmax_from (S j) best_j best ps'
  end.

Definition idxmax (classes : list string) (p : Q) (ps : list Q) : option string :=
  classes !! argmax_from 1 0 p ps.

(** One row: [pd.DataFrame(..., columns=classes)] refuses a row whose
    width is not the number of classes, and [idxmax] one without cells;
    [results.max_probability < min_probability] is taken in the element
    type [d] of the frame. *)
Definition label_row (classes : list string) (d : dtype)
  (min_probability : SpecFloat.spec_float)
  (non_labeled_value : option string) (row : list Q) : result labelled :=
  if decide (length row = length classes) then
    match row with
    | [] => Raise ValueError
    | p :: ps =>
        let m := row_max p ps in
        let l := idxmax classes p ps in
        Ok {| probabilities := row;
              max_probability := m;
              label := if lt_float m (astype d min_probability)
                       then non_labeled_value else l;
              source := "xgb" |}
    end
  else Raise ValueError.

Definition classify_and_label {Features} (self : PartiallyLabeledXGB Features)
  (X : Features) (min_probability : SpecFloat.spec_float)
  (non_labeled_value : option string)
  : result (list labelled) :=
  for_each (label_row (classes_ self) (predict_proba_dtype self) min_probability
                      non_labeled_value)
           (predict_proba self X).

(** *** [cross_validate]

    The splitter, the row selection and the training are library code:
    [StratifiedKFold_split n_splits shuffle random_state n y] stands for
    [StratifiedKFold(n_splits=n_splits, shuffle=shuffle,
    random_state=random_state).split(np.arange(n), y=y)], the (train, test)
    index lists of every fold; [fit_and_report] stands for fitting a fresh
    [PartiallyLabeledXGB] on the training rows and reporting on the test
    rows, and threads numpy's global generator, from which the
    [train_test_split] inside [fit] draws. *)

Section CrossValidation.
Context {Features Params Report Rng : Type}.
Variable StratifiedKFold_split :
  nat → bool → option Z → nat → list string → result (list (list nat * list nat)).
Variable shape0 : Features → nat.
Variable take_rows : Features → list nat → Features.
Variable fit_and_report :
  Params → Features → list (option string) → Q → nat →
  Features → list (option string) → Rng → result (Report * Rng).

(** [y[idx]] *)
Definition take_labels (y : list (option string)) (idx : list nat)
  : list (option string) :=
  omap (fun i => y !! i) idx.

(** [stratify_on = np.copy(y); stratify_on[pd.isnull(stratify_on)] = null_name] *)
Definition fill_null (null_name : string) (y : list (option string)) : list string :=
  map (default null_name) y.

(** The folds the loop of [cross_validate] runs over. *)
Definition cross_validate_folds (X : Features) (y : list (option string))
  (stratify_on : option (list string)) (n_splits : nat) (random_state : Z)
  (null_name : string) : result (list (list nat * list nat)) :=
  let stratify_on :=
    match stratify_on with
    | None => fill_null null_name y
    | Some key => key
    end in
  if decide (length stratify_on ≠ length y) then Raise ValueError
  else StratifiedKFold_split n_splits false None (shape0 X) stratify_on.

Fixpoint run_folds (xgb_parameters : Params) (X : Features) (y : list (option string))
  (eval_fraction : Q) (early_stopping_rounds : nat)
  (folds : list (list nat * list nat)) (rng : Rng) : result (list Report * Rng) :=
  match folds with
  | [] => Ok ([], rng)
  | (idx_train, idx_test) :: folds' =>
      let y_train := take_labels y idx_train in
      let y_test := take_labels y idx_test in
      let X_train := take_rows X idx_train in
      let X_test := take_rows X idx_test in
      '(report, rng) ← fit_and_report xgb_parameters X_train y_train eval_fraction
                         early_stopping_rounds X_test y_test rng;
      '(outputs, rng) ← run_folds xgb_parameters X y eval_fraction
                          early_stopping_rounds folds' rng;
      Ok (report :: outputs, rng)
  end.

Definition cross_validate (xgb_parameters : Params) (X : Features)
  (y : list (option string)) (eval_fraction : Q) (early_stopping_rounds : nat)
  (stratify_on : option (list string)) (n_splits : nat) (random_state : Z)
  (null_name : string) (rng : Rng) : result (list Report * Rng) :=
  folds ← cross_validate_folds X y stratify_on n_splits random_state null_name;
  run_folds xgb_parameters X y eval_fraction early_stopping_rounds folds rng.

End CrossValidation.

End Classifier.
(** *** scikit-learn's stratified splitter

    [StratifiedKFold(...).split]: classes are numbered by first
    appearance, the samples of each class are dealt to the folds in turn
    (the allocation counts the class in every [n_splits]-th position of the
    sorted class numbers), and, with [shuffle], the fold numbers of each
    class are permuted by the generator seeded with [random_state], here
    the parameter [shuffle_folds]. *)

Module Sklearn.
Import Py.

Fixpoint appearance (seen y : list string) : list string :=
  match y with
  | [] => seen
  | c :: y' =>
      if decide (c ∈ seen) then appearance seen y' else appearance (seen ++ [c]) y'
  end.

Definition encode (classes : list string) (c : string) : nat :=
  match list_find (fun c' => c' = c) classes with
  | Some (k, _) => k
  | None => 0%nat
  end.

Definition count (k : nat) (l : list nat) : nat :=
  length (List.filter (Nat.eqb k) l).

(** [l[i::n]] *)
Definition every_nth (i n : nat) (l : list nat) : list nat :=
  omap (fun j => if decide (j mod n = i)%nat then l !! j else None) (seq 0 (length l)).

Section Split.
Variable shuffle_folds : option Z → nat → list nat → list nat.

Definition _make_test_folds (n_splits : nat) (shuffle : bool) (random_state : option Z)
  (y : list string) : result (list nat) :=
  let classes := appearance [] y in
  let y_encoded := map (encode classes) y in
  let n_classes := length classes in
  let y_counts := map (fun k => count k y_encoded) (seq 0 n_classes) in
  if forallb (fun c => c <? n_splits)%nat y_counts then Raise ValueError
  else
    let y_order := flat_map (fun k => replicate (count k y_encoded) k) (seq 0 n_classes) in
    let allocation i k := count k (every_nth i n_splits y_order) in
    let folds_for_class k :=
      let folds := flat_map (fun i => replicate (allocation i k) i) (seq 0 n_splits) in
      if shuffle then shuffle_folds random_state k folds else folds in
    Ok (imap (fun j k => default 0%nat (folds_for_class k !! count k (take j y_encoded)))
             y_encoded).

Definition StratifiedKFold_split (n_splits : nat) (shuffle : bool)
  (random_state : option Z) (n_samples : nat) (y : list string)
  : result (list (list nat * list nat)) :=
  if (n_splits <=? 1)%nat then Raise ValueError
  else if decide (length y ≠ n_samples) then Raise ValueError
  else if (n_samples <? n_splits)%nat then Raise ValueError
  else
    test_folds ← _make_test_folds n_splits shuffle random_state y;
    let indices := seq 0 n_samples in
    let in_fold i j := bool_decide (test_folds !! j = Some i) in
    Ok (map (fun i => (List.filter (fun j => negb (in_fold i j)) indices,
                       List.filter (in_fold i) indices))
            (seq 0 n_splits)).

End Split.

End Sklearn.

(** *** Example classifier and cross-validation setting *)

Module ClassifierExamples.
Import Py Classifier.

(** Three classes; the features of a batch are its probability rows. *)
Definition three_classes : PartiallyLabeledXGB (list (list Q)) :=
  {| classes_ := ["a"; "b"; "c"];
     xgb_predict_proba := fun X => X;
     calibrated_clf := None |}.

Definition X3 : list (list Q) :=
  [[1#8; 5#8; 2#8]; [0#1; 1#16; 15#16]; [7#16; 7#16; 2#16]].


(** The Python floats [0.9] (the binary64 number nearest to 9/10) and
    [0.4375]. *)
Definition float_0_9 : SpecFloat.spec_float :=
  SpecFloat.S754_finite false 8106479329266893 (-53).

Definition float_0_4375 : SpecFloat.spec_float :=
  SpecFloat.S754_finite false 7881299347898368 (-54).


(** A toy generator-driven permutation for the shuffled splitter. *)
Definition rotate_by_seed (random_state : option Z) (k : nat) (folds : list nat)
  : list nat :=
  rotate (Z.to_nat (default 0 random_state) + k) folds.

Definition y6 : list (option string) :=
  [Some "u"; Some "v"; None; Some "u"; Some "v"; None].

(** A report that records the rows trained and tested on; the generator is
    a counter of draws. *)
Definition toy_report (params : unit) (X_train : list nat) (y_train : list (option string))
  (eval_fraction : Q) (early_stopping_rounds : nat)
  (X_test : list nat) (y_test : list (option string)) (rng : nat)
  : result ((list nat * list nat) * nat) :=
  Ok ((X_train, X_test), S rng).

Definition toy_cross_validate (random_state : Z) : result (list (list nat * list nat) * nat) :=
  cross_validate (Sklearn.StratifiedKFold_split rotate_by_seed)
    (fun X => length X) (fun X idx => omap (fun i => X !! i) idx) toy_report
    tt [10; 11; 12; 13; 14; 15]%nat y6 (1#10) 10 None 2 random_state "__null__" 0%nat.

End ClassifierExamples.
(** ** Table operations used by the preparation pipeline *)

Module Pandas.

(** The order on pairs of ids that [merge] sorts by. *)
Definition pair_le (a b : Z * Z) : Prop :=
  (a.1 < b.1)%Z ∨ (a.1 = b.1 ∧ (a.2 ≤ b.2)%Z).

#[export] Instance pair_le_dec : RelDecision pair_le.
Proof. intros a b. unfold pair_le. apply _. Defined.

(** Comparing rows by a key. *)
Definition on {A K} (le : relation K) (key : A → K) : relation A :=
  fun a b => le (key a) (key b).

#[export] Instance on_dec {A K} (le : relation K) `{!RelDecision le} (key : A → K) :
  RelDecision (on le key).
Proof. intros a b. unfold on. apply _. Defined.

(** [sort_values(column)]: ascending on the column; the order of rows with
    equal values is the one the merge sort gives (pandas leaves it open). *)
Definition sort_values {A} (column : A → Z) (rows : list A) : list A :=
  merge_sort (on Z.le column) rows.

(** [sort_values(column, ascending=False)] *)
Definition sort_values_desc {A} (column : A → Z) (rows : list A) : list A :=
  merge_sort (on (flip Z.le) column) rows.

(** The value columns are [int64]: a sum that leaves the range wraps
    around, as numpy's does, without an error. *)
Definition int64 (z : Z) : Prop := (- 2 ^ 63 ≤ z < 2 ^ 63)%Z.

#[export] Instance int64_dec (z : Z) : Decision (int64 z).
Proof. unfold int64. apply _. Defined.

Definition wrap64 (z : Z) : Z := ((z + 2 ^ 63) mod 2 ^ 64 - 2 ^ 63)%Z.

(** The groups of [groupby(key)[value].sum()] in the order in which their
    keys first appear: one row per key with the 64-bit sum of its values. *)
Fixpoint add_to_group {K} `{EqDecision K} (k : K) (v : Z) (acc : list (K * Z))
  : list (K * Z) :=
  match acc with
  | [] => [(k, v)]
  | (k', v') :: acc' =>
      if decide (k = k') then (k', wrap64 (v' + v)) :: acc'
      else (k', v') :: add_to_group k v acc'
  end.

Definition group_sums {K} `{EqDecision K} (rows : list (K * Z)) : list (K * Z) :=
  fold_left (fun acc kv => add_to_group kv.1 kv.2 acc) rows [].

(** pandas' [groupby(key)[value].sum()] on a frame in memory: the groups
    sorted by key. *)
Definition groupby_sum {K} `{EqDecision K} (le : relation K) `{!RelDecision le}
  (rows : list (K * Z)) : list (K * Z) :=
  merge_sort (on le fst) (group_sums rows).

(** The sum of the values that the rows give for one key. *)
Definition total {K} `{EqDecision K} (k : K) (rows : list (K * Z)) : Z :=
  foldr (fun kv acc => if decide (kv.1 = k) then kv.2 + acc else acc) 0 rows.

(** [drop_duplicates(subset=key, keep="last")] *)
Fixpoint drop_duplicates_last {A K} `{EqDecision K} (key : A → K) (rows : list A)
  : list A :=
  match rows with
  | [] => []
  | r :: rows' =>
      if decide (key r ∈ map key rows') then drop_duplicates_last key rows'
      else r :: drop_duplicates_last key rows'
  end.

(** [column.unique()]: the values in order of first appearance. *)
Fixpoint unique {K} `{EqDecision K} (seen values : list K) : list K :=
  match values with
  | [] => seen
  | v :: values' =>
      if decide (v ∈ seen) then unique seen values' else unique (seen ++ [v]) values'
  end.

(** [np.argmax]: the first position of the largest value. *)
Fixpoint argmax_from (j best_j best : nat) (l : list nat) : nat :=
  match l with
  | [] => best_j
  | x :: l' =>
      if (best <? x)%nat then argmax_from (S j) j x l'
      else argmax_from (S j) best_j best l'
  end.

Definition argmax (l : list nat) : option nat :=
  match l with
  | [] => None
  | x :: l' => Some (argmax_from 1 0 x l')
  end.

(** A sparse matrix: its shape and its stored cells. *)
Record matrix : Type := {
  shape : nat * nat;
  cells : gmap (nat * nat) Z;
}.

Definition dok_matrix (shape : nat * nat) : matrix :=
  {| shape := shape; cells := ∅ |}.

Definition cell (m : matrix) (i j : nat) : Z := default 0 (cells m !! (i, j)).

(** [m[i, j] = v]: a [dok_matrix] stores no zero, assigning one removes
    the cell; an index outside the shape raises [IndexError]. *)
Definition store (cells : gmap (nat * nat) Z) (key : nat * nat) (v : Z)
  : gmap (nat * nat) Z :=
  if decide (v = 0) then delete key cells else <[key := v]> cells.

Definition setitem (m : matrix) (i j : nat) (v : Z) : Py.result matrix :=
  if ((i <? (shape m).1) && (j <? (shape m).2))%nat then
    Py.Ok {| shape := shape m; cells := store (cells m) (i, j) v |}
  else Py.Raise Py.IndexError.

End Pandas.
(** ** Experiment preparation ([tsundoku/features/prepare_experiment.py]) *)

Module Prepare.
Import Py Pandas.

(** *** Files

    The interim partitions under [data/interim/<folder>] are read only, and
    only through [dd_from_paths]; each has a size on disk and holds one
    table.  The artifacts under [data/processed/<key>] are read and
    written by the stages.  The two directories are two stores. *)

(** A row of an edge table: source user, target user, count. *)
Record edge : Type := {
  source_id : Z;
  target_id : Z;
  frequency : Z;
}.

(** A row of [unique_users.json.gz]. *)
Record user : Type := {
  user_id : Z;
  user_url : option string;
  user_name_tokens : list string;
  user_description_tokens : list string;
}.

Inductive table : Type :=
| Edgelist (rows : list edge)                        (* <type>_edgelist.json.gz *)
| TweetsPerUser (rows : list (Z * Z))                (* user.id, "0" *)
| UniqueUsers (rows : list user)
| TweetVocabulary (rows : list (Z * string * Z))     (* user.id, token, frequency *)
| UserUrls (rows : list (Z * string * Z)).           (* user.id, domain, frequency *)

Record partition : Type := {
  st_size : nat;
  table_of : table;
}.

(** A Python [dict] from user id to row: the items in insertion order. *)
Abbreviation dict := (list (Z * nat)).

Definition dict_get (d : dict) (k : Z) : option nat :=
  (fun found => found.2.2) <$> list_find (fun item => item.1 = k) d.

Fixpoint dict_set (k : Z) (v : nat) (d : dict) : dict :=
  match d with
  | [] => [(k, v)]
  | (k', v') :: d' => if decide (k = k') then (k', v) :: d' else (k', v') :: dict_set k v d'
  end.

Definition dict_update (d : dict) (items : list (Z * nat)) : dict :=
  fold_left (fun d item => dict_set item.1 item.2 d) items d.

Definition to_dict (items : list (Z * nat)) : dict := dict_update [] items.

Definition dict_contains (d : dict) (k : Z) : bool := bool_decide (k ∈ map fst d).

Inductive artifact : Type :=
| EdgesAll (rows : list edge)                 (* user.<type>_edges.all.json.gz *)
| TotalTweets (rows : list (Z * Z))           (* user.id, user.dataset_tweets *)
| UsersUnique (rows : list (user * Z))        (* the roster with its tweet counts *)
| ElemIds (rows : list (Z * nat))             (* user.id, row_id *)
| ComponentHistogram (sizes : list nat)
| TargetIds (rows : list (Z * nat))           (* index, node_id *)
| MatrixNpz (m : matrix)
| DomainsAll (rows : list (string * Z))       (* domain, frequency *)
| DomainsRelevant (rows : list (string * Z * nat))   (* domain, frequency, token_id *)
| Vocabulary (rows : list (string * Z))
| RelevantVocabulary (rows : list (string * Z * nat)).

Abbreviation interim_store := (gmap string partition).
Abbreviation processed_store := (gmap string artifact).

Definition exists_ (processed : processed_store) (path : string) : bool :=
  bool_decide (is_Some (processed !! path)).

(** [pd.read_json(path, lines=True)] on an artifact. *)
Definition read_artifact (processed : processed_store) (path : string) : result artifact :=
  match processed !! path with
  | Some a => Ok a
  | None => Raise FileNotFoundError
  end.

(** *** [dd_from_paths] *)

(** The paths that exist and are at least [min_size] bytes long. *)
Definition valid_paths (interim : interim_store) (paths : list string) (min_size : nat)
  : list string :=
  List.filter
    (fun x => match interim !! x with
              | Some f => (min_size <=? st_size f)%nat
              | None => false
              end)
    paths.

(** [dd.read_json(paths)]: the tables of the files, one partition per
    file; dask refuses an empty list. *)
Definition dd_read_json (interim : interim_store) (paths : list string)
  : result (list table) :=
  match paths with
  | [] => Raise TypeError
  | _ =>
      for_each (fun x => match interim !! x with
                         | Some f => Ok (table_of f)
                         | None => Raise FileNotFoundError
                         end) paths
  end.

(** [min_size] is [None] when the caller leaves the default. *)
Definition dd_from_paths (interim : interim_store) (paths : list string)
  (min_size : option nat) : result (list table) :=
  dd_read_json interim (valid_paths interim paths (default 100%nat min_size)).

(** Reading the rows of a lazy frame as one kind of table; another kind
    lacks the columns.  A file without rows is read as a frame without
    columns: grouping it, or selecting a column of it, raises
    [KeyError]. *)
Definition require_columns {A} (rows : list A) : result (list A) :=
  match rows with
  | [] => Raise KeyError
  | _ => Ok rows
  end.

Definition edgelist_rows (t : table) : result (list edge) :=
  match t with Edgelist rows => require_columns rows | _ => Raise KeyError end.

Definition tweets_per_user_rows (t : table) : result (list (Z * Z)) :=
  match t with TweetsPerUser rows => require_columns rows | _ => Raise KeyError end.

Definition unique_users_rows (t : table) : result (list user) :=
  match t with UniqueUsers rows => Ok rows | _ => Raise KeyError end.

Definition user_urls_rows (t : table) : result (list (Z * string * Z)) :=
  match t with UserUrls rows => require_columns rows | _ => Raise KeyError end.

Definition compute {A} (rows_of : table → result (list A)) (dd : list table)
  : result (list A) :=
  parts ← for_each rows_of dd; Ok (concat parts).

Section Stages.

(** *** Grouping a lazy frame

    dask sums each group within the partitions and then across them, in
    [int64]; the order in which it returns the groups depends on the
    partitions and on its version, and is taken as given:
    [dask_order K parts groups] is [groups] in that order. *)
Variable dask_order : ∀ K : Type, list (list (K * Z)) → list (K * Z) → list (K * Z).

(** [dd.groupby(key).sum().compute()] on the partitions [parts]. *)
Definition dask_groupby_sum {K} `{EqDecision K} (parts : list (list (K * Z)))
  : list (K * Z) :=
  dask_order K parts (group_sums (concat parts)).

(** *** [group_user_interactions] *)

Definition edge_key (e : edge) : (Z * Z) * Z := ((source_id e, target_id e), frequency e).

Definition edge_of_key (kv : (Z * Z) * Z) : edge :=
  {| source_id := kv.1.1; target_id := kv.1.2; frequency := kv.2 |}.

Definition group_user_interactions (interaction_dd : list table)
  (interaction_name destination_path : string) (overwrite : bool)
  (processed : processed_store) : result processed_store :=
  let interactions_target :=
    destination_path </> ("user." +:+ interaction_name +:+ "_edges.all.json.gz") in
  if negb overwrite && exists_ processed interactions_target then Ok processed
  else
    parts ← for_each edgelist_rows interaction_dd;
    let interactions := dask_groupby_sum (map (map edge_key) parts) in
    Ok (<[interactions_target := EdgesAll (map edge_of_key interactions)]> processed).

(** *** [count_user_tweets] *)

Definition count_user_tweets (interim : interim_store) (data_paths : list string)
  (destination_path : string) (overwrite : bool) (processed : processed_store)
  : result processed_store :=
  let count_target := destination_path </> "user.total_tweets.json.gz" in
  if negb overwrite && exists_ processed count_target then Ok processed
  else
    dd ← dd_from_paths interim (map (fun d => d </> "tweets_per_user.json.gz") data_paths) None;
    parts ← for_each tweets_per_user_rows dd;
    let tweet_dd := sort_values snd (dask_groupby_sum parts) in
    Ok (<[count_target := TotalTweets tweet_dd]> processed).

(** *** Library behaviour taken as given

    [set_union a b] is the order in which Python iterates over
    [set(a) | set(b)]; [from_edgelist edges directed] is
    [aves.models.network.Network.from_edgelist] on the edge rows (source
    node, target node, weight); [label_components g directed] is
    [graph_tool.topology.label_components]: the component of every vertex
    and the size of every component. *)

Variable set_union : list Z → list Z → list Z.
Context {Graph : Type}.
Variable from_edgelist : list (nat * nat * Z) → bool → Graph.
Variable label_components : Graph → bool → list nat * list nat.

(** *** [find_nodes_in_discussion] *)

Definition read_edges (processed : processed_store) (path : string) : result (list edge) :=
  a ← read_artifact processed path;
  match a with
  | EdgesAll rows => Ok rows
  | _ => Raise ValueError
  end.

(** [layers.merge(layer, how="outer").fillna(0)]: the rows of [layers] are
    a key and [width] layer columns; the result is sorted by key and has
    one more column. *)
Definition merge_layer (width : nat) (layers : list ((Z * Z) * list Z)) (layer : list edge)
  : list ((Z * Z) * list Z) :=
  let keys :=
    merge_sort pair_le
      (unique [] (map fst layers ++ map (fun e => (source_id e, target_id e)) layer)) in
  flat_map
    (fun k =>
       let L := List.filter (fun row => bool_decide (row.1 = k)) layers in
       let R := List.filter (fun e => bool_decide ((source_id e, target_id e) = k)) layer in
       match L, R with
       | [], _ => map (fun e => (k, replicate width 0 ++ [frequency e])) R
       | _, [] => map (fun row => (k, row.2 ++ [0])) L
       | _, _ => flat_map (fun row => map (fun e => (k, row.2 ++ [frequency e])) R) L
       end)
    keys.

Definition node_of (id_to_node : dict) (id : Z) : result nat :=
  match dict_get id_to_node id with
  | Some n => Ok n
  | None => Raise ValueError
  end.

Definition find_nodes_in_discussion (processed_path : string) (directed overwrite : bool)
  (processed : processed_store) : result (list (Z * nat) * processed_store) :=
  retweet ← read_edges processed (processed_path </> "user.retweet_edges.all.json.gz");
  let layers := merge_layer 0 [] retweet in
  reply ← read_edges processed (processed_path </> "user.reply_edges.all.json.gz");
  let layers := merge_layer 1 layers reply in
  quote ← read_edges processed (processed_path </> "user.quote_edges.all.json.gz");
  let layers := merge_layer 2 layers quote in
  let weight (row : (Z * Z) * list Z) := foldr Z.add 0 row.2 in
  let unique_user_ids :=
    set_union (unique [] (map (fun row => row.1.1) layers))
              (unique [] (map (fun row => row.1.2) layers)) in
  let id_to_node := to_dict (zip unique_user_ids (seq 0 (length unique_user_ids))) in
  edges ← for_each (fun row =>
                      s ← node_of id_to_node row.1.1;
                      t ← node_of id_to_node row.1.2;
                      Ok (s, t, weight row)) layers;
  let network := from_edgelist edges false in
  let '(layer_components, component_histogram) := label_components network false in
  let processed :=
    <[processed_path </> "discussion.component_histogram.csv.gz"
      := ComponentHistogram component_histogram]> processed in
  if decide (length layer_components ≠ length unique_user_ids) then Raise ValueError
  else
    let node_components := zip unique_user_ids layer_components in
    match argmax component_histogram with
    | None => Raise ValueError
    | Some largest_id =>
        Ok (List.filter (fun nc => bool_decide (nc.2 = largest_id)) node_components,
            processed)
    end.

(** For comparison: the same computation with the two library calls given
    the flags [graph_directed] and [components_directed]. *)
Definition discussion_nodes (graph_directed components_directed : bool)
  (processed_path : string)
  (processed : processed_store) : result (list (Z * nat) * processed_store) :=
  retweet ← read_edges processed (processed_path </> "user.retweet_edges.all.json.gz");
  let layers := merge_layer 0 [] retweet in
  reply ← read_edges processed (processed_path </> "user.reply_edges.all.json.gz");
  let layers := merge_layer 1 layers reply in
  quote ← read_edges processed (processed_path </> "user.quote_edges.all.json.gz");
  let layers := merge_layer 2 layers quote in
  let weight (row : (Z * Z) * list Z) := foldr Z.add 0 row.2 in
  let unique_user_ids :=
    set_union (unique [] (map (fun row => row.1.1) layers))
              (unique [] (map (fun row => row.1.2) layers)) in
  let id_to_node := to_dict (zip unique_user_ids (seq 0 (length unique_user_ids))) in
  edges ← for_each (fun row =>
                      s ← node_of id_to_node row.1.1;
                      t ← node_of id_to_node row.1.2;
                      Ok (s, t, weight row)) layers;
  let network := from_edgelist edges graph_directed in
  let '(layer_components, component_histogram) := label_components network components_directed in
  let processed :=
    <[processed_path </> "discussion.component_histogram.csv.gz"
      := ComponentHistogram component_histogram]> processed in
  if decide (length layer_components ≠ length unique_user_ids) then Raise ValueError
  else
    let node_components := zip unique_user_ids layer_components in
    match argmax component_histogram with
    | None => Raise ValueError
    | Some largest_id =>
        Ok (List.filter (fun nc => bool_decide (nc.2 = largest_id)) node_components,
            processed)
    end.

(** *** [group_users] *)

(** [users.join(tweet_count, on="user.id", how="inner")] *)
Definition join_counts (users : list user) (tweet_count : list (Z * Z)) : list (user * Z) :=
  flat_map
    (fun u => map (fun c => (u, c.2))
                  (List.filter (fun c => bool_decide (c.1 = user_id u)) tweet_count))
    users.

Definition read_total_tweets (processed : processed_store) (path : string)
  : result (list (Z * Z)) :=
  a ← read_artifact processed path;
  match a with
  | TotalTweets rows => Ok rows
  | _ => Raise KeyError
  end.

(** The roster [group_users] computes when it does not skip, and the
    store after the histogram is written. *)
Definition compute_roster (interim : interim_store) (data_paths : list string)
  (processed_path : string) (discussion_only directed : bool)
  (processed : processed_store) : result (list (user * Z) * processed_store) :=
  dd ← dd_from_paths interim (map (fun d => d </> "unique_users.json.gz") data_paths) None;
  rows ← compute unique_users_rows dd;
  let users := drop_duplicates_last user_id rows in
  '(users, processed) ←
    (if discussion_only then
       '(nodes_in_largest, processed) ←
         find_nodes_in_discussion processed_path directed false processed;
       Ok (List.filter (fun u => bool_decide (user_id u ∈ map fst nodes_in_largest)) users,
           processed)
     else Ok (users, processed));
  tweet_count ← read_total_tweets processed (processed_path </> "user.total_tweets.json.gz");
  Ok (sort_values_desc snd (join_counts users tweet_count), processed).

Definition group_users (interim : interim_store) (data_paths : list string)
  (processed_path : string) (discussion_only directed overwrite : bool)
  (processed : processed_store) : result processed_store :=
  let target_file := processed_path </> "user.unique.json.gz" in
  let elem_ids_target := processed_path </> "user.elem_ids.json.gz" in
  if negb overwrite && (exists_ processed target_file && exists_ processed elem_ids_target)
  then Ok processed
  else
    '(users, processed) ←
      compute_roster interim data_paths processed_path discussion_only directed processed;
    let processed := <[target_file := UsersUnique users]> processed in
    let processed :=
      <[elem_ids_target := ElemIds (imap (fun i u => (user_id u.1, i)) users)]> processed in
    Ok processed.

(** *** [build_network] *)

Definition build_network (name : string) (elem_to_id : dict) (destination_path : string)
  (overwrite : bool) (processed : processed_store) : result processed_store :=
  let edges_path := destination_path </> ("user." +:+ name +:+ "_edges.all.json.gz") in
  let id_to_node_path := destination_path </> ("network." +:+ name +:+ ".target_ids.json.gz") in
  let adjacency_matrix_path := destination_path </> ("network." +:+ name +:+ ".matrix.npz") in
  if negb overwrite
     && (exists_ processed id_to_node_path && exists_ processed adjacency_matrix_path)
  then Ok processed
  else
    all_edges ← read_edges processed edges_path;
    all_edges ← require_columns all_edges;
    let edges := List.filter (fun e => dict_contains elem_to_id (source_id e)) all_edges in
    let unique_user_ids :=
      set_union (unique [] (map source_id edges)) (unique [] (map target_id edges)) in
    let id_to_node := elem_to_id in
    let non_dataset_users :=
      List.filter (fun x => negb (dict_contains id_to_node x)) unique_user_ids in
    let id_to_node :=
      dict_update id_to_node
        (to_dict (zip non_dataset_users
                      (seq (length id_to_node) (length non_dataset_users)))) in
    let processed := <[id_to_node_path := TargetIds id_to_node]> processed in
    let sparse_adjacency_matrix := dok_matrix (length elem_to_id, length id_to_node) in
    sparse_adjacency_matrix ←
      for_fold (fun m e =>
                  match dict_get id_to_node (source_id e), dict_get id_to_node (target_id e) with
                  | Some source, Some target => setitem m source target (frequency e)
                  | _, _ => Raise IndexError
                  end)
               edges sparse_adjacency_matrix;
    Ok (<[adjacency_matrix_path := MatrixNpz sparse_adjacency_matrix]> processed).

(** The pieces of [build_network], as functions of the roster and of the
    edge table: the edges it keeps, the users it adds in the order the set
    yields them, and the mapping it writes. *)
Definition kept_edges (elem_to_id : dict) (all_edges : list edge) : list edge :=
  List.filter (fun e => dict_contains elem_to_id (source_id e)) all_edges.

Definition non_dataset_users (elem_to_id : dict) (all_edges : list edge) : list Z :=
  let edges := kept_edges elem_to_id all_edges in
  List.filter (fun x => negb (dict_contains elem_to_id x))
              (set_union (unique [] (map source_id edges)) (unique [] (map target_id edges))).

Definition extended_ids (elem_to_id : dict) (all_edges : list edge) : dict :=
  let new_users := non_dataset_users elem_to_id all_edges in
  elem_to_id ++ zip new_users (seq (length elem_to_id) (length new_users)).

(** For comparison, the numbering the specification describes: the
    non-roster targets of the kept edges in their order of first
    appearance in the edge table, numbered from [len(elem_to_id)]. *)
Definition first_seen_ids (elem_to_id : dict) (all_edges : list edge) : dict :=
  let edges := List.filter (fun e => dict_contains elem_to_id (source_id e)) all_edges in
  let new_users :=
    List.filter (fun x => negb (dict_contains elem_to_id x))
                (unique [] (map target_id edges)) in
  elem_to_id ++ zip new_users (seq (length elem_to_id) (length new_users)).

(** *** [group_user_urls] *)


Definition max_plus_one (values : list nat) : result nat :=
  match values with
  | [] => Raise ValueError
  | _ => Ok (S (max_list values))
  end.

Definition group_user_urls (urls_dd : list table) (elem_to_id : dict)
  (destination_path : string) (min_freq : Z) (overwrite : bool)
  (processed : processed_store) : result processed_store :=
  let url_frequency_target := destination_path </> "user.domains.all.json.gz" in
  let url_frequency_relevant_target := destination_path </> "user.domains.relevant.json.gz" in
  let url_matrix_target := destination_path </> "user.domains.matrix.npz" in
  if negb overwrite && exists_ processed url_matrix_target then Ok processed
  else
    parts ← for_each user_urls_rows urls_dd;
    let urls := dask_groupby_sum parts in
    let url_frequency :=
      sort_values_desc snd (groupby_sum String.le (map (fun row => (row.1.2, row.2)) urls)) in
    let processed := <[url_frequency_target := DomainsAll url_frequency]> processed in
    let url_frequency_relevant :=
      imap (fun i row => (row.1, row.2, i))
           (List.filter (fun row => bool_decide (min_freq ≤ row.2)%Z) url_frequency) in
    let processed :=
      <[url_frequency_relevant_target := DomainsRelevant url_frequency_relevant]> processed in
    let url_to_id (domain : string) : option nat :=
      (fun found => found.2.2)
        <$> list_find (fun row => row.1.1 = domain) url_frequency_relevant in
    let urls_relevant :=
      List.filter (fun row => bool_decide (is_Some (url_to_id row.1.2))) urls in
    n_rows ← max_plus_one (map snd elem_to_id);
    n_columns ← max_plus_one (map snd url_frequency_relevant);
    dtm ← for_fold (fun m row =>
                      match dict_get elem_to_id row.1.1 with
                      | None => Ok m
                      | Some row_id =>
                          match url_to_id row.1.2 with
                          | Some column_id => setitem m row_id column_id row.2
                          | None => Raise KeyError
                          end
                      end)
                   urls_relevant (dok_matrix (n_rows, n_columns));
    Ok (<[url_matrix_target := MatrixNpz dtm]> processed).

(** The two frequency tables [group_user_urls] writes, as functions of
    the partitions of the URL tables. *)
Definition url_frequency (parts : list (list (Z * string * Z))) : list (string * Z) :=
  sort_values_desc snd
    (groupby_sum String.le
       (map (fun row => (row.1.2, row.2)) (dask_groupby_sum parts))).

Definition url_frequency_relevant (min_freq : Z) (parts : list (list (Z * string * Z)))
  : list (string * Z * nat) :=
  imap (fun i row => (row.1, row.2, i))
       (List.filter (fun row => bool_decide (min_freq ≤ row.2)%Z) (url_frequency parts)).

(** *** [main]

    The three stages whose helpers ([tsundoku.features.dtm],
    [tsundoku.features.helpers], [tsundoku.features.urls]) are outside these
    sources are taken as given: each receives the lazily loaded frame, its
    other arguments and the processed store. *)

Variable build_vocabulary_and_matrix :
  list table → string → string → string → string → dict → Z → option string → bool →
  processed_store → result processed_store.
Variable build_user_tweets_term_matrix :
  list table → string → dict → Z → option string → bool →
  processed_store → result processed_store.
Variable group_profile_domains :
  list table → dict → string → Z → Z → bool → processed_store → result processed_store.

(** One entry of [experiments] in [experiments.toml], and its [thresholds]
    table; an absent key is [None]. *)
Record Experiment : Type := {
  key : string;
  folder_start : option string;
  folder_end : option string;
  discussion_only : option bool;
  discussion_directed : option bool;
}.

Record Thresholds : Type := {
  name_tokens : option Z;
  description_tokens : option Z;
  tweet_tokens : option Z;
  tweet_domains : option Z;
  profile_domains : option Z;
  profile_tlds : option Z;
}.


Definition with_discussion_directed (experimental_settings : Experiment)
  (value : option bool) : Experiment :=
  {| key := key experimental_settings;
     folder_start := folder_start experimental_settings;
     folder_end := folder_end experimental_settings;
     discussion_only := discussion_only experimental_settings;
     discussion_directed := value |}.

Definition read_elem_ids (processed : processed_store) (path : string) : result dict :=
  a ← read_artifact processed path;
  match a with
  | ElemIds rows => Ok (to_dict rows)
  | _ => Raise KeyError
  end.

Definition interactions : list string := ["reply"; "quote"; "retweet"].

(** [main] from the point where both configuration files are loaded:
    [source_folders] is the sorted result of the [glob], [stopwords_exists]
    whether [stopwords.txt] is in the configuration directory. *)
Definition main (path_data path_config : string) (source_folders : list string)
  (experimental_settings : Experiment) (thresholds : Thresholds)
  (stopwords_exists overwrite : bool)
  (interim : interim_store) (processed : processed_store) : result processed_store :=
  match source_folders with
  | [] => Raise IndexError
  | _ =>
      let key_folders := map basename source_folders in
      let key_folders :=
        match folder_start experimental_settings with
        | Some start => List.filter (fun x => String.leb start x) key_folders
        | None => key_folders
        end in
      let key_folders :=
        match folder_end experimental_settings with
        | Some stop => List.filter (fun x => String.leb x stop) key_folders
        | None => key_folders
        end in
      let data_base := path_data </> "interim" in
      let processed_path := path_data </> "processed" </> key experimental_settings in
      let data_paths := map (fun k => data_base </> k) key_folders in
      processed ←
        for_fold
          (fun processed int_name =>
             interaction_dd ←
               dd_from_paths interim
                 (map (fun d => d </> (int_name +:+ "_edgelist.json.gz")) data_paths) None;
             group_user_interactions interaction_dd int_name processed_path overwrite
               processed)
          interactions processed;
      processed ← count_user_tweets interim data_paths processed_path overwrite processed;
      processed ←
        group_users interim data_paths processed_path
          (default false (discussion_only experimental_settings))
          (default false (discussion_directed experimental_settings))
          overwrite processed;
      let stopwords_file :=
        if stopwords_exists then Some (path_config </> "stopwords.txt") else None in
      let min_freq := default 50 (name_tokens thresholds) in
      users_dd ←
        dd_from_paths interim (map (fun d => d </> "unique_users.json.gz") data_paths) None;
      elem_to_id ← read_elem_ids processed (processed_path </> "user.elem_ids.json.gz");
      processed ←
        build_vocabulary_and_matrix users_dd processed_path "user" "user.id"
          "user.name_tokens" elem_to_id min_freq stopwords_file overwrite processed;
      let min_freq := default 50 (description_tokens thresholds) in
      processed ←
        build_vocabulary_and_matrix users_dd processed_path "user" "user.id"
          "user.description_tokens" elem_to_id min_freq stopwords_file overwrite processed;
      terms_dd ←
        dd_from_paths interim (map (fun d => d </> "tweet_vocabulary.json.gz") data_paths) None;
      let min_freq := default 50 (tweet_tokens thresholds) in
      processed ←
        build_user_tweets_term_matrix terms_dd processed_path elem_to_id min_freq
          stopwords_file overwrite processed;
      processed ←
        for_fold
          (fun processed int_name =>
             build_network int_name elem_to_id processed_path overwrite processed)
          interactions processed;
      urls_dd ←
        dd_from_paths interim (map (fun d => d </> "user_urls.json.gz") data_paths) None;
      let min_freq := default 50 (tweet_domains thresholds) in
      processed ← group_user_urls urls_dd elem_to_id processed_path 50 overwrite processed;
      let min_freq := default 10 (profile_domains thresholds) in
      let min_freq_tld := default 50 (profile_tlds thresholds) in
      group_profile_domains users_dd elem_to_id processed_path min_freq min_freq_tld
        overwrite processed
  end.

End Stages.

End Prepare.
(** *** A reference model of the graph library

    Vertices are numbered from 0; [label_components g directed] numbers the
    components in the order of their smallest vertex: connected components
    when [directed] is false, strongly connected ones when it is true. *)

Module GraphTool.

Record Graph : Type := {
  is_directed : bool;
  num_vertices : nat;
  edge_list : list (nat * nat);
}.

Definition from_edgelist (edges : list (nat * nat * Z)) (directed : bool) : Graph :=
  {| is_directed := directed;
     num_vertices :=
       match edges with
       | [] => 0%nat
       | _ => S (max_list (flat_map (fun e => [e.1.1; e.1.2]) edges))
       end;
     edge_list := map fst edges |}.

Definition successors (g : Graph) (directed : bool) (u : nat) : list nat :=
  flat_map
    (fun e =>
       (if bool_decide (e.1 = u) then [e.2] else [])
       ++ (if negb directed && bool_decide (e.2 = u) then [e.1] else []))
    (edge_list g).

Fixpoint closure (fuel : nat) (g : Graph) (directed : bool) (visited : list nat)
  : list nat :=
  match fuel with
  | O => visited
  | S fuel' =>
      closure fuel' g directed
        (remove_dups (visited ++ flat_map (successors g directed) visited))
  end.

Definition reachable (g : Graph) (directed : bool) (u : nat) : list nat :=
  closure (num_vertices g) g directed [u].

Definition component (g : Graph) (directed : bool) (u : nat) : list nat :=
  if directed then
    List.filter (fun v => bool_decide (u ∈ reachable g directed v)) (reachable g directed u)
  else reachable g directed u.

Definition label_step (g : Graph) (directed : bool)
  (acc : list (option nat) * nat) (u : nat) : list (option nat) * nat :=
  match acc.1 !! u with
  | Some None =>
      (imap (fun v l => if bool_decide (v ∈ component g directed u) then Some acc.2 else l)
            acc.1,
       S acc.2)
  | _ => acc
  end.

Definition label_components (g : Graph) (directed : bool) : list nat * list nat :=
  let '(labels, n) :=
    fold_left (label_step g directed) (seq 0 (num_vertices g))
              (replicate (num_vertices g) None, 0%nat) in
  let labels := map (default 0%nat) labels in
  (labels, map (fun c => length (List.filter (Nat.eqb c) labels)) (seq 0 n)).

End GraphTool.

(** *** Example stores *)

Module PrepareExamples.
Import Py Pandas Prepare.

(** The order CPython iterates a set of a few small non-negative
    integers in: each sits in the hash table at its own value. *)
Definition ascending_union (a b : list Z) : list Z :=
  merge_sort Z.le (unique [] (a ++ b)).

(** dask returning the groups in the order in which their keys first
    appear. *)
Definition first_appearance (K : Type) (parts : list (list (K * Z)))
  (groups : list (K * Z)) : list (K * Z) := groups.

Definition mk_edge (s t f : Z) : edge :=
  {| source_id := s; target_id := t; frequency := f |}.

Definition mk_user (i : Z) : user :=
  {| user_id := i; user_url := None; user_name_tokens := [];
     user_description_tokens := [] |}.

Definition dir : string := "data/processed/full".

(** Retweets 1→2→3, a reply 4→5, a quote 1→2; tweet counts for users
    1 to 5. *)
Definition processed0 : processed_store :=
  {[ dir </> "user.retweet_edges.all.json.gz" := EdgesAll [mk_edge 1 2 4; mk_edge 2 3 1];
     dir </> "user.reply_edges.all.json.gz" := EdgesAll [mk_edge 4 5 2];
     dir </> "user.quote_edges.all.json.gz" := EdgesAll [mk_edge 1 2 1];
     dir </> "user.total_tweets.json.gz"
       := TotalTweets [(5, 1); (3, 2); (4, 2); (2, 3); (1, 7)] ]}.

(** Two day folders; the second day's user file is 40 bytes long. *)
Definition interim0 : interim_store :=
  {[ "data/interim/d1/unique_users.json.gz"
       := {| st_size := 900; table_of := UniqueUsers (map mk_user [1; 2; 3; 4]) |};
     "data/interim/d2/unique_users.json.gz"
       := {| st_size := 40; table_of := UniqueUsers (map mk_user [5; 6]) |} ]}.

Definition data_paths0 : list string := ["data/interim/d1"; "data/interim/d2"; "data/interim/d3"].

(** A retweet table in which the first target seen, 5, is larger than the
    second, 3; user 7 is not in the roster. *)
Definition retweets0 : processed_store :=
  {[ dir </> "user.retweet_edges.all.json.gz"
       := EdgesAll [mk_edge 1 5 4; mk_edge 2 3 1; mk_edge 7 1 1] ]}.

(** The same table with a retweet edge of frequency zero. *)
Definition retweets1 : processed_store :=
  {[ dir </> "user.retweet_edges.all.json.gz"
       := EdgesAll [mk_edge 1 5 4; mk_edge 2 3 0; mk_edge 7 1 1] ]}.

(** URL counts of two users over two days: a.com sums to 60, b.org to 49,
    c.net to 50. *)
Definition urls_dd0 : list table :=
  [ UserUrls [(1, "a.com", 30); (1, "b.org", 49); (2, "c.net", 20)];
    UserUrls [(2, "a.com", 10); (1, "a.com", 20); (2, "c.net", 30); (9, "c.net", 0)] ].

Definition roster0 : dict := [(1, 0%nat); (2, 1%nat)].


(** Reply edges of two days, and the tweet counts of two days. *)
Definition replies_dd0 : list table :=
  [ Edgelist [mk_edge 2 1 1; mk_edge 1 2 3];
    Edgelist [mk_edge 1 2 2; mk_edge 1 1 1] ].

Definition interim1 : interim_store :=
  {[ "data/interim/d1/tweets_per_user.json.gz"
       := {| st_size := 300; table_of := TweetsPerUser [(1, 4); (2, 1)] |};
     "data/interim/d2/tweets_per_user.json.gz"
       := {| st_size := 300; table_of := TweetsPerUser [(3, 5); (1, 3); (2, 1)] |} ]}.

End PrepareExamples.
(** ** Facts about the error monad *)

Section PyFacts.
Import Py.
Context {A B : Type}.

Lemma for_each_pure (f : A → B) (body : A → result B) (l : list A) :
  Forall (fun x => body x = Ok (f x)) l → for_each body l = Ok (map f l).
Proof.
  induction 1 as [|x l Hx _ IH]; simpl; [done|].
  by rewrite Hx; simpl; rewrite IH.
Qed.

Lemma for_each_Ok (body : A → result B) (l : list A) (ys : list B) :
  for_each body l = Ok ys → Forall2 (fun x y => body x = Ok y) l ys.
Proof.
  revert ys. induction l as [|x l IH]; simpl; intros ys Hys.
  - injection Hys as <-. constructor.
  - destruct (body x) as [y|e] eqn:Hx; simpl in Hys; [|discriminate].
    destruct (for_each body l) as [ys'|e] eqn:Hl; simpl in Hys; [|discriminate].
    injection Hys as <-. constructor; auto.
Qed.

Lemma mask_select_map (f : A → bool) (l : list A) :
  mask_select l (map f l) = List.filter f l.
Proof.
  induction l as [|x l IH]; simpl; [done|]. rewrite IH. by destruct (f x).
Qed.

End PyFacts.

(** ** Facts about the importer *)

Section ImporterFacts.
Import Py Importer.

Lemma candidates_spec (self : TweetImporter) (df : DataFrame) (r : tweet) :
  r ∈ candidates self df ↔ r ∈ rows df ∧ location_flag self r = true.
Proof.
  unfold candidates. rewrite !list_elem_of_In, filter_In. tauto.
Qed.

Lemma keyword_row_text (self : TweetImporter) (df : DataFrame) (r : tweet) (b : bool) :
  keyword_row self df r = Ok b →
  has_text df = true ∧
  ∃ s, tw_text r = Some s ∧ b = keyword_policy self (findings (automaton self) s).
Proof.
  unfold keyword_row, scan. destruct (has_text df); [|discriminate].
  destruct (tw_text r) as [s|]; [|discriminate].
  simpl. intros [= <-]. eauto.
Qed.

Lemma keyword_rows_Ok (self : TweetImporter) (df : DataFrame) (res : list bool) :
  for_each (keyword_row self df) (candidates self df) = Ok res →
  Forall (fun r => is_Some (tw_text r)) (candidates self df) ∧
  res = map (keyword_keep self) (candidates self df).
Proof.
  intros H%for_each_Ok. induction H as [|r b l res Hr _ [IH1 IH2]]; [done|].
  apply keyword_row_text in Hr as [_ (s & Hs & ->)].
  split; [constructor; [rewrite Hs; eauto | done] |].
  simpl. unfold keyword_keep at 1. rewrite Hs. by f_equal.
Qed.

(** [filter_dataframe] returns whenever the frame has a text column and
    every row that carries an id carries a text. *)
Lemma filter_dataframe_returns (self : TweetImporter) (df : DataFrame) :
  has_text df = true →
  Forall (fun r => is_Some (tw_id r) → is_Some (tw_text r)) (rows df) →
  ∃ out, filter_dataframe self df = Ok out.
Proof.
  intros Htext Hrows. unfold filter_dataframe.
  destruct (0 <? _)%nat; [|eauto].
  rewrite (for_each_pure (keyword_keep self)); [simpl; eauto|].
  apply Forall_forall. intros r [Hr Hflag]%candidates_spec.
  rewrite Forall_forall in Hrows.
  destruct (Hrows r) as [s Hs]; [done| |].
  - unfold location_flag in Hflag.
    destruct (decide (is_Some (tw_id r))) as [|Hn]; [done|].
    rewrite (bool_decide_eq_false_2 _ Hn) in Hflag.
    repeat (simpl in Hflag; case_match; try discriminate).
  - unfold keyword_row, scan, keyword_keep. by rewrite Htext, Hs.
Qed.

(** With a non-empty automaton the result is the keyword selection of the
    location candidates. *)
Lemma filter_dataframe_keyword_rows (self : TweetImporter) (df out : DataFrame) :
  automaton_len (automaton self) ≠ 0%nat →
  filter_dataframe self df = Ok out →
  Forall (fun r => is_Some (tw_text r)) (candidates self df) ∧
  rows out = List.filter (keyword_keep self) (candidates self df).
Proof.
  intros Hlen. unfold filter_dataframe.
  destruct (Nat.ltb_spec 0 (automaton_len (automaton self))) as [_|?]; [|lia].
  destruct (for_each _ _) as [res|e] eqn:Hres; simpl; [|discriminate].
  intros [= <-]. apply keyword_rows_Ok in Hres as [Hall ->].
  split; [done|]. simpl. apply mask_select_map.
Qed.

Lemma findings_iter (A : Automaton) (s v : string) :
  v ∈ findings A s ↔ ∃ e, (e, v) ∈ iter A s.
Proof.
  unfold findings. rewrite elem_of_list_to_set, list_elem_of_In, in_map_iff. split.
  - intros [[e v'] [<- Hin]]. exists e. by apply list_elem_of_In.
  - intros [e Hin]. exists (e, v). by rewrite <- list_elem_of_In.
Qed.

Lemma keyword_keep_spec (self : TweetImporter) (r : tweet) (s : string) :
  tw_text r = Some s →
  let A := automaton self in
  (terms_patterns self ≠ None →
     keyword_keep self r = true ↔
     (∃ e, (e, "search-term") ∈ iter A s) ∧ ¬ (∃ e, (e, "rejected-term") ∈ iter A s)) ∧
  (terms_patterns self = None →
     keyword_keep self r = true ↔ ¬ (∃ e, (e, "rejected-term") ∈ iter A s)).
Proof.
  intros Hs A. unfold keyword_keep, keyword_policy. rewrite Hs.
  rewrite <- !findings_iter. fold A.
  split; intros Hp; destruct (terms_patterns self); try done.
  - rewrite andb_true_iff, negb_true_iff, bool_decide_eq_true, bool_decide_eq_false.
    tauto.
  - rewrite negb_true_iff, bool_decide_eq_false. tauto.
Qed.




(** C1. With a non-empty automaton, [filter_dataframe] returns on every
    batch whose id-bearing rows carry a text, and in what it returns a
    location-passing record is kept if and only if, when
    [terms["patterns"]] is not [None], the scan of its text yields a
    "search-term" match and no "rejected-term" match, and, when
    [terms["patterns"]] is [None], the scan yields no "rejected-term"
    match.  Nothing else is kept. *)
Theorem filter_dataframe_keyword_policy (self : TweetImporter) (df : DataFrame) :
  automaton_len (automaton self) ≠ 0%nat →
  let A := automaton self in
  (has_text df = true →
   Forall (fun r => is_Some (tw_id r) → is_Some (tw_text r)) (rows df) →
   ∃ out, filter_dataframe self df = Ok out) ∧
  ∀ out, filter_dataframe self df = Ok out →
    (∀ r, r ∈ rows out → r ∈ candidates self df) ∧
    ∀ r, r ∈ candidates self df →
      ∃ s, tw_text r = Some s ∧
        (terms_patterns self ≠ None →
           r ∈ rows out ↔
           (∃ e, (e, "search-term") ∈ iter A s) ∧ ¬ (∃ e, (e, "rejected-term") ∈ iter A s)) ∧
        (terms_patterns self = None →
           r ∈ rows out ↔ ¬ (∃ e, (e, "rejected-term") ∈ iter A s)).
Proof.
  intros Hlen A. split; [apply filter_dataframe_returns|].
  intros out Hout.
  destruct (filter_dataframe_keyword_rows self df out Hlen Hout) as [Htext Hrows].
  assert (Hmem : ∀ r, r ∈ rows out ↔ r ∈ candidates self df ∧ keyword_keep self r = true).
  { intros r. rewrite Hrows, !list_elem_of_In, filter_In. tauto. }
  split; [intros r Hr; by apply Hmem|].
  intros r Hr. rewrite Forall_forall in Htext.
  destruct (Htext r Hr) as [s Hs]. exists s. split; [done|].
  destruct (keyword_keep_spec self r s Hs) as [Hsome Hnone]. fold A in Hsome, Hnone.
  split; intros Hp; rewrite Hmem; [rewrite <- (Hsome Hp) | rewrite <- (Hnone Hp)]; tauto.
Qed.


End ImporterFacts.
(** *** The keyword and location policies on the example batch *)

Section ImporterExampleFacts.
Import Py Importer ImporterExamples.

Example keyword_alpha_only :
  filter_dataframe alpha_only batch = Ok {| has_text := true; rows := [t_alpha; t_both] |}.
Proof. vm_compute. reflexivity. Qed.

Example keyword_alpha_beta :
  filter_dataframe alpha_beta batch = Ok {| has_text := true; rows := [t_alpha] |}.
Proof. vm_compute. reflexivity. Qed.

Example keyword_beta_only :
  filter_dataframe beta_only batch = Ok {| has_text := true; rows := [t_alpha; t_plain] |}.
Proof. vm_compute. reflexivity. Qed.

Example location_york_strict :
  filter_dataframe york_strict batch = Ok {| has_text := true; rows := [t_alpha] |}.
Proof. vm_compute. reflexivity. Qed.

Example location_york_lenient :
  filter_dataframe york_lenient batch = Ok {| has_text := true; rows := [t_alpha; t_plain] |}.
Proof. vm_compute. reflexivity. Qed.

(** A row with an id and no text stops the keyword stage. *)
Example keyword_missing_text :
  filter_dataframe alpha_only
    {| has_text := true;
       rows := [{| tw_id := Some 9; tw_text := None; user_location := None;
                   user_description := None; user_name := None |}] |}
  = Raise TypeError.
Proof. vm_compute. reflexivity. Qed.

Lemma batch_texts :
  Forall (fun r => is_Some (tw_id r) → is_Some (tw_text r)) (rows batch).
Proof.
  repeat constructor; simpl; intros [i Hi]; try discriminate; eauto.
Qed.

Lemma filter_dataframe_keyword_policy_witness :
  automaton_len (automaton alpha_beta) ≠ 0%nat ∧
  ∃ out, filter_dataframe alpha_beta batch = Ok out ∧
    (t_alpha ∈ rows out ↔
     (∃ e, (e, "search-term") ∈ iter (automaton alpha_beta) "an alpha release") ∧
     ¬ (∃ e, (e, "rejected-term") ∈ iter (automaton alpha_beta) "an alpha release")).
Proof.
  assert (Hlen : automaton_len (automaton alpha_beta) ≠ 0%nat) by (vm_compute; lia).
  split; [exact Hlen|].
  destruct (filter_dataframe_keyword_policy alpha_beta batch Hlen) as [Hret Hpol].
  destruct Hret as [out Hout]; [reflexivity | exact batch_texts |].
  exists out. split; [exact Hout|].
  destruct (Hpol out Hout) as [_ Hrow].
  destruct (Hrow t_alpha) as (s & Hs & Hsome & _).
  - apply list_elem_of_In. vm_compute. auto.
  - injection Hs as <-. apply Hsome. vm_compute. discriminate.
Defined.


End ImporterExampleFacts.
(** *** Importing a batch of files *)

Section ImportFacts.
Import Py Importer.
Variables (self : TweetImporter) (raw : raw_store).
Variables (target_path : string) (file_prefix : option string).

(** A file either is skipped, leaving the written files alone, or is
    imported with the length of its frame, or stops the batch. *)
Lemma _read_file_cases (i : nat) (f : string) (written : json_store) :
  match read_tweet_dataframe self raw f with
  | Raise ZlibError => _read_file self raw i f target_path file_prefix written = Ok (0%nat, written)
  | Raise e => _read_file self raw i f target_path file_prefix written = Raise e
  | Ok df =>
      match processed self raw f with
      | None => _read_file self raw i f target_path file_prefix written = Ok (0%nat, written)
      | Some df' =>
          df' = df ∧
          ∃ written', _read_file self raw i f target_path file_prefix written
                      = Ok (length (rows df), written')
      end
  end.
Proof.
  unfold _read_file, processed.
  destruct (read_tweet_dataframe self raw f) as [df|e]; [|by destruct e].
  destruct (negb (has_text df) || empty df); eauto.
Qed.

Lemma run_tasks_counts (files : list string) :
  ∀ (i : nat) (written : json_store) (counts : list nat) (written' : json_store),
    run_tasks self raw i files target_path file_prefix written = Ok (counts, written') →
    sum_list counts
    = sum_list (map (fun df => length (rows df)) (omap (processed self raw) files)).
Proof.
  induction files as [|f files IH]; simpl; intros i written counts written' Hrun.
  - by injection Hrun as <- <-.
  - pose proof (_read_file_cases i f written) as Hf.
    destruct (_read_file self raw i f target_path file_prefix written)
      as [[n w1]|e] eqn:Hread; simpl in Hrun; [|discriminate].
    destruct (run_tasks self raw (S i) files target_path file_prefix w1)
      as [[ns w2]|e] eqn:Hrest; simpl in Hrun; [|discriminate].
    injection Hrun as <- <-. apply IH in Hrest. simpl. rewrite Hrest.
    destruct (read_tweet_dataframe self raw f) as [df|e] eqn:Hdf.
    + destruct (processed self raw f) as [df'|].
      * destruct Hf as [-> [w Hw]]. by injection Hw as -> _.
      * by injection Hf as -> _.
    + assert (processed self raw f = None) as -> by (unfold processed; by rewrite Hdf).
      destruct e; try discriminate. by injection Hf as -> _.
Qed.

Lemma run_tasks_returns (files : list string) :
  Forall (fun f => read_tweet_dataframe self raw f = Raise ZlibError
                   ∨ ∃ df, read_tweet_dataframe self raw f = Ok df) files →
  ∀ (i : nat) (written : json_store),
    ∃ counts written',
      run_tasks self raw i files target_path file_prefix written = Ok (counts, written').
Proof.
  induction 1 as [|f files Hf _ IH]; simpl; intros i written; [eauto|].
  pose proof (_read_file_cases i f written) as Hc.
  assert (∃ n w, _read_file self raw i f target_path file_prefix written = Ok (n, w))
    as (n & w & ->).
  { destruct Hf as [Hz|[df Hdf]].
    - rewrite Hz in Hc. eauto.
    - rewrite Hdf in Hc. destruct (processed self raw f); [|eauto].
      destruct Hc as [_ [w Hw]]. eauto. }
  simpl. destruct (IH (S i) w) as (ns & w' & ->). simpl. eauto.
Qed.

(** C3. A file whose read raises [zlib.error], and a file whose filtered
    frame has no text column or no row, make [_read_file] return 0 with
    nothing written; when no read raises anything else, [import_files]
    returns; and the total it logs is the sum of the frame lengths of the
    files that were processed. *)
Theorem import_files_resilient (file_names : list string) (written : json_store) :
  (∀ i f, read_tweet_dataframe self raw f = Raise ZlibError →
     _read_file self raw i f target_path file_prefix written = Ok (0%nat, written)) ∧
  (∀ i f df, read_tweet_dataframe self raw f = Ok df →
     has_text df = false ∨ rows df = [] →
     _read_file self raw i f target_path file_prefix written = Ok (0%nat, written)) ∧
  (Forall (fun f => read_tweet_dataframe self raw f = Raise ZlibError
                    ∨ ∃ df, read_tweet_dataframe self raw f = Ok df) file_names →
   ∃ total written',
     import_files self raw file_names target_path file_prefix written
     = Ok (total, written')) ∧
  (∀ total written',
     import_files self raw file_names target_path file_prefix written
     = Ok (total, written') →
     total = sum_list (map (fun df => length (rows df))
                           (omap (processed self raw) file_names))).
Proof.
  repeat split.
  - intros i f Hz. unfold _read_file. by rewrite Hz.
  - intros i f df Hdf Hskip. unfold _read_file. rewrite Hdf.
    destruct Hskip as [->|Hrows]; [done|].
    unfold empty. rewrite Hrows. by rewrite orb_true_r.
  - intros Hall. unfold import_files.
    destruct (run_tasks_returns file_names Hall 0%nat written) as (counts & w & ->).
    simpl. eauto.
  - intros total written'. unfold import_files.
    destruct (run_tasks self raw 0 file_names target_path file_prefix written)
      as [[counts w]|e] eqn:Hrun; simpl; [|discriminate].
    intros [= <- <-]. by eapply run_tasks_counts.
Qed.

End ImportFacts.

(** *** The three-file batch *)

Section ImportExampleFacts.
Import Py Importer ImporterExamples.

Example import_three_files :
  import_files alpha_beta raw3 files3 "json/2021-01-01" (Some "tweets.partition") ∅
  = Ok (1%nat,
        {[ "json/2021-01-01/tweets.partition.2.json.gz" := [add_tokens alpha_beta t_alpha] ]}).
Proof. vm_compute. reflexivity. Qed.

Lemma import_files_resilient_witness :
  ∃ total written',
    import_files alpha_beta raw3 files3 "json/2021-01-01" None ∅ = Ok (total, written')
    ∧ total = 1%nat.
Proof.
  destruct (import_files_resilient alpha_beta raw3 "json/2021-01-01" None files3 ∅)
    as (_ & _ & Hret & Htotal).
  destruct Hret as (total & written' & Himp).
  - constructor; [left; vm_compute; reflexivity|].
    constructor; [right; eexists; vm_compute; reflexivity|].
    constructor; [right; eexists; vm_compute; reflexivity|].
    constructor.
  - exists total, written'. split; [exact Himp|].
    rewrite (Htotal total written' Himp). vm_compute. reflexivity.
Defined.

End ImportExampleFacts.
(** ** Facts about the classifier *)

Section ClassifierFacts.
Import Py Classifier.







End ClassifierFacts.

(** *** Abstention on the example classifier *)

Section ClassifierExampleFacts.
Import Py Classifier ClassifierExamples.

(** [float_0_9] is within half a unit in the last place of 9/10, and
    rounds to the [float32] number 15099494 * 2^-24. *)
Example float_0_9_nearest :
  (9 # 10 <= value false 8106479329266893 (-53))%Q
  ∧ (value false 8106479329266893 (-53) - (9 # 10) <= 1 # 18014398509481984)%Q
  ∧ astype float32 float_0_9 = SpecFloat.S754_finite false 15099494 (-24).
Proof. repeat split; vm_compute; (discriminate || reflexivity). Qed.

Example classify_and_label_X3 :
  classify_and_label three_classes X3 float_0_9 None
  = Ok [ {| probabilities := [1#8; 5#8; 2#8]; max_probability := 5#8;
            label := None; source := "xgb" |};
         {| probabilities := [0#1; 1#16; 15#16]; max_probability := 15#16;
            label := Some "c"; source := "xgb" |};
         {| probabilities := [7#16; 7#16; 2#16]; max_probability := 7#16;
            label := None; source := "xgb" |} ].
Proof. vm_compute. reflexivity. Qed.

(** At the threshold the class is kept, and of two equal maxima the first
    column wins. *)
Example classify_and_label_at_threshold :
  classify_and_label three_classes X3 float_0_4375 (Some "unknown")
  = Ok [ {| probabilities := [1#8; 5#8; 2#8]; max_probability := 5#8;
            label := Some "b"; source := "xgb" |};
         {| probabilities := [0#1; 1#16; 15#16]; max_probability := 15#16;
            label := Some "c"; source := "xgb" |};
         {| probabilities := [7#16; 7#16; 2#16]; max_probability := 7#16;
            label := Some "a"; source := "xgb" |} ].
Proof. vm_compute. reflexivity. Qed.



End ClassifierExampleFacts.

(** *** Cross-validation *)

Section CrossValidationFacts.
Import Py Classifier.
Context {Features Params Report Rng : Type}.
Variable StratifiedKFold_split :
  nat → bool → option Z → nat → list string → result (list (list nat * list nat)).
Variable shape0 : Features → nat.
Variable take_rows : Features → list nat → Features.
Variable fit_and_report :
  Params → Features → list (option string) → Q → nat →
  Features → list (option string) → Rng → result (Report * Rng).

(** C10. Whatever the splitter, the training and the data, the folds of
    [cross_validate] are those of the unshuffled splitter built from
    [n_splits] alone, for any two values of [random_state] they are the
    same folds, and so is everything [cross_validate] returns. *)
Theorem cross_validate_ignores_random_state
  (xgb_parameters : Params) (X : Features) (y : list (option string))
  (eval_fraction : Q) (early_stopping_rounds : nat)
  (stratify_on : option (list string)) (n_splits : nat) (null_name : string)
  (rng : Rng) (random_state1 random_state2 : Z) :
  let key := default (fill_null null_name y) stratify_on in
  (length key = length y →
   cross_validate_folds StratifiedKFold_split shape0 X y stratify_on n_splits
     random_state1 null_name
   = StratifiedKFold_split n_splits false None (shape0 X) key) ∧
  cross_validate_folds StratifiedKFold_split shape0 X y stratify_on n_splits
    random_state1 null_name
  = cross_validate_folds StratifiedKFold_split shape0 X y stratify_on n_splits
      random_state2 null_name ∧
  cross_validate StratifiedKFold_split shape0 take_rows fit_and_report
    xgb_parameters X y eval_fraction early_stopping_rounds stratify_on n_splits
    random_state1 null_name rng
  = cross_validate StratifiedKFold_split shape0 take_rows fit_and_report
      xgb_parameters X y eval_fraction early_stopping_rounds stratify_on n_splits
      random_state2 null_name rng.
Proof.
  intros key. split; [|split; reflexivity].
  intros Hlen. unfold cross_validate_folds.
  destruct stratify_on as [k|]; simpl in *; by rewrite decide_False by (by intros ?).
Qed.

End CrossValidationFacts.

Section CrossValidationExampleFacts.
Import Py Classifier ClassifierExamples.

(** The toy splitter does depend on its seed when it shuffles. *)
Example shuffled_splitter_depends_on_seed :
  Sklearn.StratifiedKFold_split rotate_by_seed 2 true (Some 1) 6 (fill_null "__null__" y6)
  ≠ Sklearn.StratifiedKFold_split rotate_by_seed 2 true (Some 2) 6 (fill_null "__null__" y6).
Proof. vm_compute. discriminate. Qed.

Example toy_cross_validate_42 :
  toy_cross_validate 42
  = Ok ([([13; 14; 15], [10; 11; 12]); ([10; 11; 12], [13; 14; 15])]%nat, 2%nat).
Proof. vm_compute. reflexivity. Qed.

Lemma cross_validate_ignores_random_state_witness :
  toy_cross_validate 42 = toy_cross_validate 7.
Proof.
  apply (cross_validate_ignores_random_state
           (Sklearn.StratifiedKFold_split rotate_by_seed)
           (fun X => length X) (fun X idx => omap (fun i => X !! i) idx) toy_report
           tt [10; 11; 12; 13; 14; 15]%nat y6 (1#10) 10%nat None 2%nat "__null__" 0%nat 42 7).
Defined.

End CrossValidationExampleFacts.
(** ** Facts about the preparation pipeline *)

Section PyLoopFacts.
Import Py.
Context {A B S : Type}.

Lemma for_each_ext (f g : A → result B) (l : list A) :
  (∀ x, x ∈ l → f x = g x) → for_each f l = for_each g l.
Proof.
  induction l as [|x l IH]; intros Hfg; simpl; [done|].
  rewrite (Hfg x) by constructor. rewrite IH; [done|].
  intros y Hy. apply Hfg. by constructor.
Qed.

Lemma for_fold_ext (f g : S → A → result S) (l : list A) (s : S) :
  (∀ s x, x ∈ l → f s x = g s x) → for_fold f l s = for_fold g l s.
Proof.
  revert s. induction l as [|x l IH]; intros s Hfg; simpl; [done|].
  rewrite (Hfg s x) by constructor. destruct (g s x) as [s'|e]; simpl; [|done].
  apply IH. intros s'' y Hy. apply Hfg. by constructor.
Qed.

Lemma mbind_Ok (a : A) (k : A → result B) : (Ok a ≫= k) = k a.
Proof. reflexivity. Qed.

Lemma mbind_ext (m1 m2 : result A) (k1 k2 : A → result B) :
  m1 = m2 → (∀ a, k1 a = k2 a) → (m1 ≫= k1) = (m2 ≫= k2).
Proof. intros -> Hk. destruct m2 as [a|e]; simpl; [apply Hk | done]. Qed.

End PyLoopFacts.

Lemma path_join_inj (d a b : string) : d </> a = d </> b → a = b.
Proof.
  unfold Py.path_join. intros H%(inj (String.app d)).
  by apply (inj (String.app "/")) in H.
Qed.

(** *** [dd_from_paths] *)

Section PartitionFacts.
Import Py Pandas Prepare.

Lemma valid_paths_spec (interim : interim_store) (paths : list string)
  (min_size : nat) (x : string) :
  x ∈ valid_paths interim paths min_size ↔
  x ∈ paths ∧ ∃ f, interim !! x = Some f ∧ (min_size ≤ st_size f)%nat.
Proof.
  unfold valid_paths. rewrite !list_elem_of_In, filter_In.
  destruct (interim !! x) as [f|].
  - rewrite Nat.leb_le. split; [intros [? ?]; eauto | intros [? (g & [= <-] & ?)]; eauto].
  - split; [intros [_ ?]; discriminate | intros [_ (g & ? & _)]; discriminate].
Qed.

Lemma valid_paths_delete (interim : interim_store) (paths : list string)
  (min_size : nat) (p : string) (f : partition) :
  interim !! p = Some f → (st_size f < min_size)%nat →
  valid_paths (delete p interim) paths min_size = valid_paths interim paths min_size.
Proof.
  intros Hp Hsmall. unfold valid_paths. apply filter_ext. intros x.
  destruct (decide (x = p)) as [->|Hne].
  - rewrite lookup_delete_eq, Hp. symmetry. apply Nat.leb_gt. lia.
  - by rewrite lookup_delete_ne.
Qed.

Lemma dd_read_json_delete (interim : interim_store) (paths : list string) (p : string) :
  p ∉ paths → dd_read_json (delete p interim) paths = dd_read_json interim paths.
Proof.
  intros Hp. unfold dd_read_json. destruct paths as [|x paths]; [done|].
  apply for_each_ext. intros y Hy.
  rewrite lookup_delete_ne; [done|]. by intros ->.
Qed.

Lemma dd_from_paths_delete (interim : interim_store) (paths : list string)
  (p : string) (f : partition) :
  interim !! p = Some f → (st_size f < 100)%nat →
  dd_from_paths (delete p interim) paths None = dd_from_paths interim paths None.
Proof.
  intros Hp Hsmall. unfold dd_from_paths. simpl.
  rewrite (valid_paths_delete _ _ _ _ _ Hp Hsmall).
  apply dd_read_json_delete. rewrite valid_paths_spec.
  intros [_ (g & Hg & Hsize)]. rewrite Hp in Hg. injection Hg as <-. lia.
Qed.

End PartitionFacts.

Section ComputeFacts.
Import Py Prepare.

(** [compute] concatenates the partitions it can read. *)
Lemma compute_parts {A} (rows_of : table → result (list A)) (dd : list table)
  (rows : list A) :
  compute rows_of dd = Ok rows ↔
  ∃ parts, for_each rows_of dd = Ok parts ∧ rows = concat parts.
Proof.
  unfold compute. destruct (for_each rows_of dd) as [parts|e]; simpl.
  - split; [intros [= <-]; eauto | by intros (? & [= <-] & ->)].
  - split; [done | by intros (? & ? & _)].
Qed.

End ComputeFacts.
(** *** The stages, for any behaviour of the libraries *)

Section StageFacts.
Import Py Pandas Prepare.
Variable dask_order : ∀ K : Type, list (list (K * Z)) → list (K * Z) → list (K * Z).
Variable set_union : list Z → list Z → list Z.
Context {Graph : Type}.
Variable from_edgelist : list (nat * nat * Z) → bool → Graph.
Variable label_components : Graph → bool → list nat * list nat.
Variable build_vocabulary_and_matrix :
  list table → string → string → string → string → dict → Z → option string → bool →
  processed_store → result processed_store.
Variable build_user_tweets_term_matrix :
  list table → string → dict → Z → option string → bool →
  processed_store → result processed_store.
Variable group_profile_domains :
  list table → dict → string → Z → Z → bool → processed_store → result processed_store.

Local Abbreviation find_nodes_in_discussion :=
  (find_nodes_in_discussion set_union from_edgelist label_components).
Local Abbreviation discussion_nodes :=
  (discussion_nodes set_union from_edgelist label_components).
Local Abbreviation compute_roster :=
  (compute_roster set_union from_edgelist label_components).
Local Abbreviation group_users :=
  (group_users set_union from_edgelist label_components).
Local Abbreviation count_user_tweets := (count_user_tweets dask_order).
Local Abbreviation main :=
  (main dask_order set_union from_edgelist label_components build_vocabulary_and_matrix
        build_user_tweets_term_matrix group_profile_domains).

(** C9. [dd_from_paths] with its default [min_size] keeps exactly the
    paths that exist and are at least 100 bytes long; a partition shorter
    than that is therefore read by no stage: the lazy frame, the tweet
    counts, the roster and the whole of [main] are what they are with the
    file removed. *)
Theorem dd_from_paths_small_as_missing (interim : interim_store)
  (p : string) (f : partition) :
  interim !! p = Some f → (st_size f < 100)%nat →
  (∀ paths x,
     x ∈ valid_paths interim paths 100 ↔
     x ∈ paths ∧ ∃ g, interim !! x = Some g ∧ (100 ≤ st_size g)%nat) ∧
  (∀ paths,
     dd_from_paths interim paths None
     = dd_read_json interim (valid_paths interim paths 100) ∧
     (p ∉ valid_paths interim paths 100) ∧
     dd_from_paths (delete p interim) paths None = dd_from_paths interim paths None) ∧
  (∀ data_paths destination_path overwrite processed,
     count_user_tweets (delete p interim) data_paths destination_path overwrite processed
     = count_user_tweets interim data_paths destination_path overwrite processed) ∧
  (∀ data_paths processed_path discussion_only directed overwrite processed,
     group_users (delete p interim) data_paths processed_path discussion_only directed
       overwrite processed
     = group_users interim data_paths processed_path discussion_only directed
         overwrite processed) ∧
  (∀ path_data path_config source_folders experimental_settings thresholds
     stopwords_exists overwrite processed,
     main path_data path_config source_folders experimental_settings thresholds
       stopwords_exists overwrite (delete p interim) processed
     = main path_data path_config source_folders experimental_settings thresholds
         stopwords_exists overwrite interim processed).
Proof.
  intros Hp Hsmall.
  pose proof (fun paths => dd_from_paths_delete interim paths p f Hp Hsmall) as Hdd.
  assert (Hcount : ∀ data_paths destination_path overwrite processed,
    count_user_tweets (delete p interim) data_paths destination_path overwrite processed
    = count_user_tweets interim data_paths destination_path overwrite processed).
  { intros. unfold count_user_tweets. by rewrite Hdd. }
  assert (Hgroup : ∀ data_paths processed_path discussion_only directed overwrite processed,
    group_users (delete p interim) data_paths processed_path discussion_only directed
      overwrite processed
    = group_users interim data_paths processed_path discussion_only directed
        overwrite processed).
  { intros. unfold Prepare.group_users, Prepare.compute_roster. by rewrite Hdd. }
  split; [intros; apply valid_paths_spec|].
  split.
  { intros paths. split; [done|]. split; [|apply Hdd].
    rewrite valid_paths_spec. intros [_ (g & Hg & Hsize)].
    rewrite Hp in Hg. injection Hg as <-. lia. }
  split; [exact Hcount|]. split; [exact Hgroup|].
  intros. unfold Prepare.main. destruct source_folders as [|folder folders]; [done|].
  cbv zeta.
  repeat (apply mbind_ext;
          [ first [ reflexivity | apply Hcount | apply Hgroup | apply Hdd
                  | apply for_fold_ext; intros s int_name _; by rewrite Hdd ]
          | intros ? ]).
  reflexivity.
Qed.

(** C8. With [overwrite] false and both outputs present [group_users]
    returns the store as it is; after any run that returned, a run with
    [overwrite] false changes nothing, whatever the partitions then hold;
    with [overwrite] true or an output missing, [group_users] returns
    exactly when the roster can be computed, and then both outputs hold
    the recomputed roster and its row ids. *)
Theorem group_users_skip_or_recompute (interim : interim_store)
  (data_paths : list string) (processed_path : string)
  (discussion_only directed : bool) (processed : processed_store) :
  let target_file := processed_path </> "user.unique.json.gz" in
  let elem_ids_target := processed_path </> "user.elem_ids.json.gz" in
  (is_Some (processed !! target_file) → is_Some (processed !! elem_ids_target) →
   group_users interim data_paths processed_path discussion_only directed false processed
   = Ok processed) ∧
  (∀ overwrite processed1,
     group_users interim data_paths processed_path discussion_only directed overwrite
       processed = Ok processed1 →
     ∀ interim' data_paths' discussion_only' directed',
       group_users interim' data_paths' processed_path discussion_only' directed' false
         processed1 = Ok processed1) ∧
  (∀ overwrite,
     overwrite = true ∨ processed !! target_file = None
     ∨ processed !! elem_ids_target = None →
     match compute_roster interim data_paths processed_path discussion_only directed
             processed with
     | Ok (users, processed') =>
         ∃ processed1,
           group_users interim data_paths processed_path discussion_only directed
             overwrite processed = Ok processed1 ∧
           processed1 !! target_file = Some (UsersUnique users) ∧
           processed1 !! elem_ids_target
           = Some (ElemIds (imap (fun i u => (user_id u.1, i)) users)) ∧
           ∀ path, path ≠ target_file → path ≠ elem_ids_target →
                   processed1 !! path = processed' !! path
     | Raise e =>
         group_users interim data_paths processed_path discussion_only directed
           overwrite processed = Raise e
     end).
Proof.
  intros target_file elem_ids_target.
  assert (Hskip : ∀ interim' data_paths' discussion_only' directed' processed0,
    is_Some (processed0 !! target_file) → is_Some (processed0 !! elem_ids_target) →
    group_users interim' data_paths' processed_path discussion_only' directed' false
      processed0 = Ok processed0).
  { intros ????? H1 H2. unfold Prepare.group_users, exists_.
    fold target_file elem_ids_target.
    by rewrite !bool_decide_eq_true_2. }
  assert (Hrun : ∀ overwrite,
    match compute_roster interim data_paths processed_path discussion_only directed
            processed with
    | Ok (users, processed') =>
        negb overwrite
        && (exists_ processed target_file && exists_ processed elem_ids_target) = false →
        group_users interim data_paths processed_path discussion_only directed
          overwrite processed
        = Ok (<[elem_ids_target := ElemIds (imap (fun i u => (user_id u.1, i)) users)]>
                (<[target_file := UsersUnique users]> processed'))
    | Raise e =>
        negb overwrite
        && (exists_ processed target_file && exists_ processed elem_ids_target) = false →
        group_users interim data_paths processed_path discussion_only directed
          overwrite processed = Raise e
    end).
  { intros overwrite. unfold Prepare.group_users. fold target_file elem_ids_target.
    destruct (compute_roster _ _ _ _ _ _) as [[users processed']|e];
      intros ->; reflexivity. }
  split; [apply Hskip|]. split.
  - intros overwrite processed1 Hfirst interim' data_paths' discussion_only' directed'.
    destruct (negb overwrite
              && (exists_ processed target_file && exists_ processed elem_ids_target))
      eqn:Hcond.
    + unfold Prepare.group_users in Hfirst. fold target_file elem_ids_target in Hfirst.
      rewrite Hcond in Hfirst. injection Hfirst as <-.
      apply andb_true_iff in Hcond as [_ [H1 H2]%andb_true_iff].
      apply Hskip; by eapply bool_decide_eq_true_1.
    + specialize (Hrun overwrite).
      destruct (compute_roster _ _ _ _ _ _) as [[users processed']|e].
      * rewrite (Hrun Hcond) in Hfirst. injection Hfirst as <-. apply Hskip.
        -- destruct (decide (elem_ids_target = target_file)) as [->|Hne].
           ++ rewrite lookup_insert_eq. eauto.
           ++ rewrite lookup_insert_ne, lookup_insert_eq by done. eauto.
        -- rewrite lookup_insert_eq. eauto.
      * rewrite (Hrun Hcond) in Hfirst. discriminate.
  - intros overwrite Hwhy.
    assert (Hcond : negb overwrite
      && (exists_ processed target_file && exists_ processed elem_ids_target) = false).
    { unfold exists_. destruct Hwhy as [->|[Hnone|Hnone]]; [done| |];
        rewrite Hnone; rewrite (bool_decide_eq_false_2 (is_Some None));
        try (by intros [? ?]); by rewrite ?andb_false_r. }
    specialize (Hrun overwrite).
    destruct (compute_roster _ _ _ _ _ _) as [[users processed']|e]; [|by apply Hrun].
    eexists. split; [by apply Hrun|].
    assert (Hdiff : target_file ≠ elem_ids_target).
    { intros Heq%path_join_inj. discriminate. }
    split; [by rewrite lookup_insert_ne, lookup_insert_eq|].
    split; [by rewrite lookup_insert_eq|].
    intros path H1 H2. by rewrite !lookup_insert_ne.
Qed.

(** C5. Whatever [directed] is, [find_nodes_in_discussion] computes what
    the comparison definition computes with both library calls told
    "undirected"; so its result, the store it leaves, the roster of
    [group_users] and the whole of [main] are the same for both values of
    the flag and of the [discussion_directed] setting. *)
Theorem find_nodes_in_discussion_ignores_directed (processed_path : string)
  (overwrite : bool) (processed : processed_store) (directed1 directed2 : bool) :
  find_nodes_in_discussion processed_path directed1 overwrite processed
  = discussion_nodes false false processed_path processed ∧
  find_nodes_in_discussion processed_path directed1 overwrite processed
  = find_nodes_in_discussion processed_path directed2 overwrite processed ∧
  (∀ interim data_paths discussion_only overwrite',
     group_users interim data_paths processed_path discussion_only directed1 overwrite'
       processed
     = group_users interim data_paths processed_path discussion_only directed2 overwrite'
         processed) ∧
  (∀ path_data path_config source_folders experimental_settings thresholds
     stopwords_exists overwrite' interim setting1 setting2,
     main path_data path_config source_folders
       (with_discussion_directed experimental_settings setting1) thresholds
       stopwords_exists overwrite' interim processed
     = main path_data path_config source_folders
         (with_discussion_directed experimental_settings setting2) thresholds
         stopwords_exists overwrite' interim processed).
Proof.
  split; [reflexivity|]. split; [reflexivity|]. split; [reflexivity|].
  intros. unfold Prepare.main. destruct source_folders as [|folder folders]; [done|].
  cbv zeta. simpl key. simpl folder_start. simpl folder_end. simpl discussion_only.
  repeat (apply mbind_ext; [ reflexivity | intros ? ]).
  reflexivity.
Qed.

End StageFacts.
(** *** The stages on the example stores, with the reference graph model *)

Section StageExampleFacts.
Import Py Pandas Prepare PrepareExamples.

Local Abbreviation find_nodes_in_discussion :=
  (find_nodes_in_discussion ascending_union GraphTool.from_edgelist
     GraphTool.label_components).
Local Abbreviation discussion_nodes :=
  (discussion_nodes ascending_union GraphTool.from_edgelist GraphTool.label_components).
Local Abbreviation group_users :=
  (group_users ascending_union GraphTool.from_edgelist GraphTool.label_components).

(** Users 1, 2 and 3 form the largest component of the undirected graph,
    whatever the flag. *)
Example discussion_of_processed0 :
  fst <$> find_nodes_in_discussion dir true false processed0
  = Ok [(1, 0%nat); (2, 0%nat); (3, 0%nat)].
Proof. vm_compute. reflexivity. Qed.

(** Had the flag reached the library, the components would be the strongly
    connected ones, here single users. *)
Example discussion_if_directed :
  fst <$> discussion_nodes true true dir processed0 = Ok [(1, 0%nat)].
Proof. vm_compute. reflexivity. Qed.

Example group_users_processed0 :
  (fun processed => (processed !! (dir </> "user.unique.json.gz"),
                     processed !! (dir </> "user.elem_ids.json.gz")))
    <$> group_users interim0 data_paths0 dir true true false processed0
  = Ok (Some (UsersUnique [(mk_user 1, 7); (mk_user 2, 3); (mk_user 3, 2)]),
        Some (ElemIds [(1, 0%nat); (2, 1%nat); (3, 2%nat)])).
Proof. vm_compute. reflexivity. Qed.

Lemma dd_from_paths_small_as_missing_witness :
  group_users
    (delete "data/interim/d2/unique_users.json.gz" interim0) data_paths0 dir false true
    false processed0
  = group_users interim0 data_paths0 dir false true false processed0.
Proof.
  destruct (dd_from_paths_small_as_missing
              first_appearance ascending_union GraphTool.from_edgelist GraphTool.label_components
              (fun _ _ _ _ _ _ _ _ _ processed => Ok processed)
              (fun _ _ _ _ _ _ processed => Ok processed)
              (fun _ _ _ _ _ _ processed => Ok processed)
              interim0 "data/interim/d2/unique_users.json.gz"
              {| st_size := 40; table_of := UniqueUsers (map mk_user [5; 6]) |})
    as (_ & _ & _ & Hgroup & _).
  - vm_compute. reflexivity.
  - simpl. lia.
  - apply Hgroup.
Defined.

Lemma group_users_skip_or_recompute_witness :
  ∃ processed1,
    group_users interim0 data_paths0 dir true false false processed0 = Ok processed1 ∧
    group_users ∅ [] dir false true false processed1 = Ok processed1.
Proof.
  destruct (group_users_skip_or_recompute
              ascending_union GraphTool.from_edgelist GraphTool.label_components
              interim0 data_paths0 dir true false processed0)
    as (_ & Hsecond & Hrecompute).
  specialize (Hrecompute false).
  assert (Hreturns : match compute_roster ascending_union GraphTool.from_edgelist
                             GraphTool.label_components interim0 data_paths0 dir true
                             false processed0 with
                     | Ok _ => True
                     | Raise _ => False
                     end).
  { vm_compute. exact I. }
  destruct (compute_roster ascending_union GraphTool.from_edgelist
              GraphTool.label_components interim0 data_paths0 dir true false processed0)
    as [[users processed']|e]; [|destruct Hreturns].
  destruct Hrecompute as (processed1 & Hrun & _).
  - right. left. vm_compute. reflexivity.
  - exists processed1. split; [exact Hrun|]. eapply Hsecond. exact Hrun.
Defined.

End StageExampleFacts.
(** ** Facts about the table operations *)

Section TotalFacts.
Import Pandas.
Context {K : Type} `{EqDecision K}.

Lemma total_Permutation (k : K) (l1 l2 : list (K * Z)) :
  l1 ≡ₚ l2 → total k l1 = total k l2.
Proof.
  induction 1 as [|[k0 v0] l1 l2 _ IH|[k0 v0] [k1 v1] l|l1 l2 l3 _ IH1 _ IH2]; simpl.
  - done.
  - by rewrite IH.
  - repeat case_decide; lia.
  - congruence.
Qed.

(** In a table with one row per key, the row of a key holds its total. *)
Lemma total_NoDup (l : list (K * Z)) (k : K) (v : Z) :
  NoDup (map fst l) → (k, v) ∈ l → total k l = v.
Proof.
  induction l as [|[k0 v0] l IH]; simpl; intros Hnd Hin.
  - by apply elem_of_nil in Hin.
  - apply NoDup_cons in Hnd as [Hk0 Hnd].
    apply elem_of_cons in Hin as [[= <- <-]|Hin].
    + rewrite decide_True by done.
      assert (total k l = 0) as ->; [|lia].
      clear -Hk0. induction l as [|[k1 v1] l IH]; simpl; [done|].
      simpl in Hk0. rewrite decide_False by (intros ->; apply Hk0; by left).
      apply IH. intros ?. apply Hk0. by right.
    + rewrite decide_False; [by apply IH|].
      intros ->. apply Hk0. apply list_elem_of_fmap. by exists (k, v).
Qed.

End TotalFacts.

Section Int64Facts.
Import Pandas.

Lemma wrap64_int64 (z : Z) : int64 (wrap64 z).
Proof.
  unfold int64, wrap64.
  change (2 ^ 63)%Z with 9223372036854775808%Z.
  change (2 ^ 64)%Z with 18446744073709551616%Z.
  pose proof (Z.mod_pos_bound (z + 9223372036854775808) 18446744073709551616). lia.
Qed.

Lemma wrap64_id (z : Z) : int64 z → wrap64 z = z.
Proof.
  unfold int64, wrap64.
  change (2 ^ 63)%Z with 9223372036854775808%Z.
  change (2 ^ 64)%Z with 18446744073709551616%Z.
  intros Hz. rewrite Z.mod_small; lia.
Qed.

Lemma wrap64_add_l (a b : Z) : wrap64 (wrap64 a + b) = wrap64 (a + b).
Proof.
  unfold wrap64.
  change (2 ^ 63)%Z with 9223372036854775808%Z.
  change (2 ^ 64)%Z with 18446744073709551616%Z.
  f_equal.
  replace ((a + 9223372036854775808) mod 18446744073709551616 - 9223372036854775808
           + b + 9223372036854775808)%Z
    with ((a + 9223372036854775808) mod 18446744073709551616 + b)%Z by lia.
  rewrite Zplus_mod_idemp_l. f_equal. lia.
Qed.

Lemma wrap64_add_r (a b : Z) : wrap64 (a + wrap64 b) = wrap64 (a + b).
Proof. rewrite (Z.add_comm a (wrap64 b)), wrap64_add_l. f_equal. lia. Qed.

(** A sum that stays in the range is not changed. *)
Lemma wrap64_idemp (z : Z) : wrap64 (wrap64 z) = wrap64 z.
Proof. apply wrap64_id, wrap64_int64. Qed.

End Int64Facts.

Section GroupFacts.
Import Pandas.
Context {K : Type} `{EqDecision K}.

Lemma add_to_group_keys_in (k : K) (v : Z) (acc : list (K * Z)) :
  k ∈ map fst acc → map fst (add_to_group k v acc) = map fst acc.
Proof.
  induction acc as [|[k' v'] acc IH]; simpl; intros Hin.
  - by apply elem_of_nil in Hin.
  - destruct (decide (k = k')) as [->|Hne]; simpl; [done|].
    rewrite IH; [done|]. by apply elem_of_cons in Hin as [?|?].
Qed.

Lemma add_to_group_keys_new (k : K) (v : Z) (acc : list (K * Z)) :
  k ∉ map fst acc → map fst (add_to_group k v acc) = map fst acc ++ [k].
Proof.
  induction acc as [|[k' v'] acc IH]; simpl; intros Hnin; [done|].
  apply not_elem_of_cons in Hnin as [Hne Hnin].
  rewrite decide_False by done. simpl. by rewrite IH.
Qed.

Lemma add_to_group_NoDup (k : K) (v : Z) (acc : list (K * Z)) :
  NoDup (map fst acc) → NoDup (map fst (add_to_group k v acc)).
Proof.
  intros Hnd. destruct (decide (k ∈ map fst acc)) as [Hin|Hnin].
  - by rewrite add_to_group_keys_in.
  - rewrite add_to_group_keys_new by done.
    apply NoDup_app. split; [done|]. split.
    + by intros x Hx ->%list_elem_of_singleton.
    + apply NoDup_singleton.
Qed.

Lemma add_to_group_int64 (k : K) (v : Z) (acc : list (K * Z)) :
  int64 v → Forall int64 (map snd acc) → Forall int64 (map snd (add_to_group k v acc)).
Proof.
  intros Hv. induction acc as [|[k' v'] acc IH]; simpl; intros Hacc.
  - by constructor.
  - apply Forall_cons in Hacc as [Hv' Hacc].
    destruct (decide (k = k')) as [->|Hne]; simpl; constructor; auto.
    apply wrap64_int64.
Qed.

(** Adding a row to the groups adds its value, in 64 bits, to the total
    of its key, also when the totals are taken after renaming the keys by
    [f]. *)
Lemma add_to_group_total {K'} `{EqDecision K'} (f : K → K') (k' : K')
  (k : K) (v : Z) (acc : list (K * Z)) :
  wrap64 (total k' (map (fun kv => (f kv.1, kv.2)) (add_to_group k v acc)))
  = wrap64 (total k' (map (fun kv => (f kv.1, kv.2)) acc)
            + (if decide (f k = k') then v else 0)).
Proof.
  induction acc as [|[k0 v0] acc IH]; simpl.
  - case_decide; f_equal; lia.
  - destruct (decide (k = k0)) as [->|Hne]; simpl.
    + destruct (decide (f k0 = k')) as [Hk|Hk].
      * rewrite <- Z.add_assoc, wrap64_add_l. f_equal. lia.
      * f_equal. lia.
    + destruct (decide (f k0 = k')) as [Hk|Hk]; [|exact IH].
      rewrite <- wrap64_add_r, IH, wrap64_add_r. f_equal. lia.
Qed.

Lemma group_sums_acc_keys (rows acc : list (K * Z)) (k : K) :
  k ∈ map fst (fold_left (fun acc kv => add_to_group kv.1 kv.2 acc) rows acc)
  ↔ k ∈ map fst acc ∨ k ∈ map fst rows.
Proof.
  revert acc. induction rows as [|[k0 v0] rows IH]; intros acc; simpl.
  - rewrite elem_of_nil. tauto.
  - rewrite IH, elem_of_cons. destruct (decide (k0 ∈ map fst acc)) as [Hin|Hnin].
    + rewrite add_to_group_keys_in by done.
      split; [tauto|]. intros [?|[->|?]]; tauto.
    + rewrite add_to_group_keys_new by done.
      rewrite elem_of_app, list_elem_of_singleton. tauto.
Qed.

Lemma group_sums_acc_NoDup (rows acc : list (K * Z)) :
  NoDup (map fst acc) →
  NoDup (map fst (fold_left (fun acc kv => add_to_group kv.1 kv.2 acc) rows acc)).
Proof.
  revert acc. induction rows as [|[k0 v0] rows IH]; intros acc Hnd; simpl; [done|].
  by apply IH, add_to_group_NoDup.
Qed.

Lemma group_sums_acc_int64 (rows acc : list (K * Z)) :
  Forall int64 (map snd rows) → Forall int64 (map snd acc) →
  Forall int64
    (map snd (fold_left (fun acc kv => add_to_group kv.1 kv.2 acc) rows acc)).
Proof.
  revert acc. induction rows as [|[k0 v0] rows IH]; intros acc Hrows Hacc; simpl; [done|].
  simpl in Hrows. apply Forall_cons in Hrows as [Hv0 Hrows].
  apply IH; [done|]. by apply add_to_group_int64.
Qed.

Lemma group_sums_acc_total {K'} `{EqDecision K'} (f : K → K') (k' : K')
  (rows acc : list (K * Z)) :
  wrap64 (total k' (map (fun kv => (f kv.1, kv.2))
                      (fold_left (fun acc kv => add_to_group kv.1 kv.2 acc) rows acc)))
  = wrap64 (total k' (map (fun kv => (f kv.1, kv.2)) acc)
            + total k' (map (fun kv => (f kv.1, kv.2)) rows)).
Proof.
  revert acc. induction rows as [|[k0 v0] rows IH]; intros acc; simpl.
  - f_equal. lia.
  - rewrite IH. rewrite <- wrap64_add_l, add_to_group_total, wrap64_add_l.
    case_decide; f_equal; lia.
Qed.

Lemma group_sums_NoDup (rows : list (K * Z)) : NoDup (map fst (group_sums rows)).
Proof. apply group_sums_acc_NoDup. constructor. Qed.

Lemma group_sums_keys (rows : list (K * Z)) (k : K) :
  k ∈ map fst (group_sums rows) ↔ k ∈ map fst rows.
Proof.
  unfold group_sums. rewrite group_sums_acc_keys. simpl. rewrite elem_of_nil. tauto.
Qed.

Lemma group_sums_int64 (rows : list (K * Z)) :
  Forall int64 (map snd rows) → Forall int64 (map snd (group_sums rows)).
Proof. intros Hrows. apply group_sums_acc_int64; [done | constructor]. Qed.

Lemma group_sums_total {K'} `{EqDecision K'} (f : K → K') (k' : K')
  (rows : list (K * Z)) :
  wrap64 (total k' (map (fun kv => (f kv.1, kv.2)) (group_sums rows)))
  = wrap64 (total k' (map (fun kv => (f kv.1, kv.2)) rows)).
Proof. unfold group_sums. rewrite group_sums_acc_total. simpl. f_equal. Qed.

(** The same facts for the groups in any order. *)
Section Arranged.
Variables (groups rows : list (K * Z)).
Hypothesis arranged : groups ≡ₚ group_sums rows.

Lemma groups_NoDup : NoDup (map fst groups).
Proof. rewrite arranged. apply group_sums_NoDup. Qed.

Lemma groups_keys (k : K) : k ∈ map fst groups ↔ k ∈ map fst rows.
Proof. rewrite arranged. apply group_sums_keys. Qed.

Lemma groups_int64 : Forall int64 (map snd rows) → Forall int64 (map snd groups).
Proof. rewrite arranged. apply group_sums_int64. Qed.

Lemma groups_total {K'} `{EqDecision K'} (f : K → K') (k' : K') :
  wrap64 (total k' (map (fun kv => (f kv.1, kv.2)) groups))
  = wrap64 (total k' (map (fun kv => (f kv.1, kv.2)) rows)).
Proof.
  rewrite (total_Permutation k' _ (map (fun kv => (f kv.1, kv.2)) (group_sums rows))).
  - apply group_sums_total.
  - apply fmap_Permutation, arranged.
Qed.

(** One row per key that occurs, holding the 64-bit sum of its values. *)
Lemma groups_spec (k : K) (v : Z) :
  Forall int64 (map snd rows) →
  (k, v) ∈ groups ↔ k ∈ map fst rows ∧ v = wrap64 (total k rows).
Proof.
  intros Hrows.
  assert (Hid : ∀ l : list (K * Z), map (fun kv => (kv.1, kv.2)) l = l).
  { intros l. induction l as [|[??] l IH]; simpl; [done | by rewrite IH]. }
  pose proof (groups_total (fun x => x) k) as Htotal.
  cbv beta in Htotal. rewrite !Hid in Htotal.
  assert (Hvalue : ∀ v', (k, v') ∈ groups → v' = wrap64 (total k rows)).
  { intros v' Hin. rewrite <- Htotal.
    rewrite (total_NoDup _ _ _ groups_NoDup Hin).
    symmetry. apply wrap64_id.
    pose proof (groups_int64 Hrows) as Hall.
    rewrite Forall_forall in Hall. apply Hall.
    apply list_elem_of_fmap. by exists (k, v'). }
  split.
  - intros Hin. split; [|by apply Hvalue].
    apply groups_keys. apply list_elem_of_fmap. by exists (k, v).
  - intros [Hk ->]. apply groups_keys in Hk.
    apply list_elem_of_fmap in Hk as ([k0 v0] & -> & Hin). simpl in *.
    by rewrite <- (Hvalue _ Hin).
Qed.

End Arranged.


End GroupFacts.
(** ** Facts about dictionaries and the matrix loops *)

Section DictFacts.
Import Py Pandas Prepare.

Lemma dict_get_Some (d : dict) (k : Z) (v : nat) :
  dict_get d k = Some v → (k, v) ∈ d.
Proof.
  unfold dict_get. intros ([i [k' v']] & Hfind & [= <-])%fmap_Some.
  apply list_find_Some in Hfind as (Hi & Hk & _). simpl in Hk. subst k'.
  by eapply list_elem_of_lookup_2.
Qed.

Lemma dict_get_None (d : dict) (k : Z) :
  dict_get d k = None ↔ k ∉ map fst d.
Proof.
  unfold dict_get. rewrite fmap_None, list_find_None, Forall_forall. split.
  - intros Hall ([k' v'] & -> & Hin)%list_elem_of_fmap. by apply (Hall _ Hin).
  - intros Hnin [k' v'] Hin Hk. simpl in Hk. subst k'.
    apply Hnin, list_elem_of_fmap. by exists (k, v').
Qed.

Lemma dict_get_is_Some (d : dict) (k : Z) :
  is_Some (dict_get d k) ↔ k ∈ map fst d.
Proof.
  rewrite <- not_eq_None_Some, dict_get_None.
  destruct (decide (k ∈ map fst d)); tauto.
Qed.

Lemma dict_contains_spec (d : dict) (k : Z) :
  dict_contains d k = true ↔ k ∈ map fst d.
Proof. unfold dict_contains. apply bool_decide_eq_true. Qed.

(** With one item per key, the item of a key is what [dict_get] finds. *)
Lemma dict_get_NoDup (d : dict) (k : Z) (v : nat) :
  NoDup (map fst d) → (k, v) ∈ d → dict_get d k = Some v.
Proof.
  intros Hnd Hin.
  destruct (dict_get d k) as [v'|] eqn:Hget.
  - apply dict_get_Some in Hget. f_equal.
    apply list_elem_of_lookup in Hin as [i Hi], Hget as [j Hj].
    assert (i = j) as ->.
    { eapply NoDup_lookup; [exact Hnd| |]; rewrite list_lookup_fmap.
      - by rewrite Hi.
      - by rewrite Hj. }
    congruence.
  - apply dict_get_None in Hget. exfalso. apply Hget, list_elem_of_fmap.
    by exists (k, v).
Qed.

Lemma dict_get_app (d1 d2 : dict) (k : Z) :
  dict_get (d1 ++ d2) k
  = match dict_get d1 k with Some v => Some v | None => dict_get d2 k end.
Proof.
  induction d1 as [|[k' v'] d1 IH]; simpl.
  - done.
  - unfold dict_get in *. simpl. case_decide; simpl; [done|].
    destruct (list_find _ (d1 ++ d2)) as [[i x]|] eqn:H1;
    destruct (list_find _ d1) as [[j y]|] eqn:H2;
    destruct (list_find _ d2) as [[l z]|] eqn:H3; simpl in *; congruence.
Qed.

Lemma dict_set_new (k : Z) (v : nat) (d : dict) :
  k ∉ map fst d → dict_set k v d = d ++ [(k, v)].
Proof.
  induction d as [|[k' v'] d IH]; simpl; intros Hnin; [done|].
  apply not_elem_of_cons in Hnin as [Hne Hnin].
  rewrite decide_False by done. by rewrite IH.
Qed.

(** Updating with items whose keys are new and distinct appends them. *)
Lemma dict_update_new (d : dict) (items : list (Z * nat)) :
  NoDup (map fst items) →
  (∀ k, k ∈ map fst items → k ∉ map fst d) →
  dict_update d items = d ++ items.
Proof.
  revert d. induction items as [|[k v] items IH]; intros d Hnd Hnew; simpl.
  - by rewrite app_nil_r.
  - apply NoDup_cons in Hnd as [Hk Hnd]. unfold dict_update in *. simpl.
    rewrite dict_set_new by (apply Hnew; by left).
    rewrite IH; [by rewrite <- app_assoc | done |].
    intros k' Hk'. rewrite map_app, elem_of_app. simpl.
    rewrite list_elem_of_singleton. intros [Hin| ->]; [|done].
    revert Hin. apply Hnew. by right.
Qed.

Lemma to_dict_NoDup (items : list (Z * nat)) :
  NoDup (map fst items) → to_dict items = items.
Proof.
  intros Hnd. unfold to_dict. rewrite dict_update_new; [done..|].
  intros k _. apply not_elem_of_nil.
Qed.

End DictFacts.

Section MatrixFacts.
Import Py Pandas.
Context {A : Type}.


Lemma setitem_Ok (m : matrix) (i j : nat) (v : Z) :
  (i < (shape m).1)%nat → (j < (shape m).2)%nat →
  setitem m i j v = Ok {| shape := shape m; cells := store (cells m) (i, j) v |}.
Proof.
  intros Hi Hj. unfold setitem.
  apply Nat.ltb_lt in Hi, Hj. by rewrite Hi, Hj.
Qed.

(** A loop whose body assigns the cell [(fi x, fj x)] the value [fv x]. *)
Lemma for_fold_cells (fi fj : A → nat) (fv : A → Z)
  (body : matrix → A → result matrix) (l : list A) (m : matrix) :
  (∀ m' x, x ∈ l → body m' x = setitem m' (fi x) (fj x) (fv x)) →
  (∀ x, x ∈ l → (fi x < (shape m).1)%nat ∧ (fj x < (shape m).2)%nat) →
  for_fold body l m
  = Ok {| shape := shape m;
          cells := foldl (fun c x => store c (fi x, fj x) (fv x)) (cells m) l |}.
Proof.
  revert m. induction l as [|x l IH]; intros m Hbody Hrange; simpl.
  - by destruct m.
  - rewrite Hbody by (by left).
    destruct (Hrange x) as [Hi Hj]; [by left|].
    rewrite setitem_Ok by done. simpl.
    rewrite IH; [done | |].
    + intros m' y Hy. apply Hbody. by right.
    + intros y Hy. simpl. apply Hrange. by right.
Qed.

Lemma lookup_store (c : gmap (nat * nat) Z) (k k' : nat * nat) (v : Z) :
  store c k v !! k'
  = if decide (k = k') then (if decide (v = 0) then None else Some v) else c !! k'.
Proof.
  unfold store. destruct (decide (v = 0)), (decide (k = k')); subst;
    by rewrite ?lookup_delete_eq, ?lookup_delete_ne, ?lookup_insert_eq, ?lookup_insert_ne.
Qed.

(** Assignments to other cells leave a cell as it is. *)
Lemma foldl_store_lookup_other (key : A → nat * nat) (fv : A → Z) (l : list A)
  (c : gmap (nat * nat) Z) (k : nat * nat) :
  k ∉ map key l → foldl (fun c x => store c (key x) (fv x)) c l !! k = c !! k.
Proof.
  revert c. induction l as [|y l IH]; intros c Hk; simpl; [done|].
  simpl in Hk. apply not_elem_of_cons in Hk as [Hne Hk].
  rewrite IH by done. rewrite lookup_store. by rewrite decide_False.
Qed.

(** When every cell is assigned once, it ends up stored with its value,
    or not stored when that is zero. *)
Lemma foldl_store_lookup_in (key : A → nat * nat) (fv : A → Z) (l : list A)
  (c : gmap (nat * nat) Z) (x : A) :
  NoDup (map key l) → x ∈ l →
  foldl (fun c x => store c (key x) (fv x)) c l !! key x
  = if decide (fv x = 0) then None else Some (fv x).
Proof.
  revert c. induction l as [|y l IH]; intros c Hnd Hx; simpl.
  - by apply elem_of_nil in Hx.
  - simpl in Hnd. apply NoDup_cons in Hnd as [Hy Hnd].
    apply elem_of_cons in Hx as [->|Hx]; [|by apply IH].
    rewrite foldl_store_lookup_other by done.
    rewrite lookup_store. by rewrite decide_True.
Qed.

Lemma foldl_store_lookup_inv (key : A → nat * nat) (fv : A → Z) (l : list A)
  (c : gmap (nat * nat) Z) (k : nat * nat) :
  is_Some (foldl (fun c x => store c (key x) (fv x)) c l !! k) →
  is_Some (c !! k) ∨ ∃ x, x ∈ l ∧ key x = k.
Proof.
  revert c. induction l as [|y l IH]; intros c Hk; simpl in Hk; [by left|].
  apply IH in Hk as [Hk|(x & Hx & Hkey)].
  - destruct (decide (key y = k)) as [Heq|Hne].
    + right. exists y. split; [by left | done].
    + left. rewrite lookup_store in Hk. by rewrite decide_False in Hk.
  - right. exists x. split; [by right | done].
Qed.

End MatrixFacts.

Section UniqueFacts.
Import Pandas.
Context {K : Type} `{EqDecision K}.

Lemma unique_elem_of (seen values : list K) (x : K) :
  x ∈ unique seen values ↔ x ∈ seen ∨ x ∈ values.
Proof.
  revert seen. induction values as [|v values IH]; intros seen; simpl.
  - rewrite elem_of_nil. tauto.
  - case_decide as Hv; rewrite IH, ?elem_of_app, ?list_elem_of_singleton, elem_of_cons.
    + split; [tauto|]. intros [?|[->|?]]; tauto.
    + tauto.
Qed.

Lemma unique_NoDup (seen values : list K) :
  NoDup seen → NoDup (unique seen values).
Proof.
  revert seen. induction values as [|v values IH]; intros seen Hnd; simpl; [done|].
  case_decide as Hv; [by apply IH|]. apply IH, NoDup_app.
  split; [done|]. split; [|apply NoDup_singleton].
  by intros x Hx ->%list_elem_of_singleton.
Qed.

End UniqueFacts.
(** *** [group_user_urls] *)

Section UrlFacts.
Import Py Pandas Prepare.
Variable dask_order : ∀ K : Type, list (list (K * Z)) → list (K * Z) → list (K * Z).
Hypothesis dask_order_Permutation :
  ∀ K (parts : list (list (K * Z))) groups, dask_order K parts groups ≡ₚ groups.
Variable set_union : list Z → list Z → list Z.
Context {Graph : Type}.
Variable from_edgelist : list (nat * nat * Z) → bool → Graph.
Variable label_components : Graph → bool → list nat * list nat.
Variable build_vocabulary_and_matrix :
  list table → string → string → string → string → dict → Z → option string → bool →
  processed_store → result processed_store.
Variable build_user_tweets_term_matrix :
  list table → string → dict → Z → option string → bool →
  processed_store → result processed_store.
Variable group_profile_domains :
  list table → dict → string → Z → Z → bool → processed_store → result processed_store.

Local Abbreviation dask_groupby_sum := (dask_groupby_sum dask_order).
Local Abbreviation url_frequency := (url_frequency dask_order).
Local Abbreviation url_frequency_relevant := (url_frequency_relevant dask_order).
Local Abbreviation group_user_urls := (group_user_urls dask_order).
Local Abbreviation main :=
  (main dask_order set_union from_edgelist label_components build_vocabulary_and_matrix
        build_user_tweets_term_matrix group_profile_domains).









End UrlFacts.
(** *** [group_user_urls] on the example counts *)

Section UrlExampleFacts.
Import Py Pandas Prepare PrepareExamples.

Lemma first_appearance_Permutation K (parts : list (list (K * Z))) groups :
  first_appearance K parts groups ≡ₚ groups.
Proof. reflexivity. Defined.

Example group_user_urls_tables :
  (fun processed => (processed !! (dir </> "user.domains.all.json.gz"),
                     processed !! (dir </> "user.domains.relevant.json.gz")))
    <$> group_user_urls first_appearance urls_dd0 roster0 dir 50 false ∅
  = Ok (Some (DomainsAll [("a.com", 60); ("c.net", 50); ("b.org", 49)]),
        Some (DomainsRelevant [("a.com", 60, 0%nat); ("c.net", 50, 1%nat)])).
Proof. vm_compute. reflexivity. Qed.

(** No domain reaches 500: the shape of the matrix cannot be computed. *)
Example group_user_urls_no_domain :
  group_user_urls first_appearance urls_dd0 roster0 dir 500 false ∅ = Raise ValueError.
Proof. vm_compute. reflexivity. Qed.



End UrlExampleFacts.
(** ** Facts about lists used below *)

Section ListFacts.
Context {A B : Type}.

Lemma elem_of_list_filter (f : A → bool) (l : list A) (x : A) :
  x ∈ List.filter f l ↔ x ∈ l ∧ f x = true.
Proof. rewrite !list_elem_of_In. apply filter_In. Qed.

Lemma NoDup_list_filter (f : A → bool) (l : list A) :
  NoDup l → NoDup (List.filter f l).
Proof.
  induction 1 as [|x l Hx _ IH]; simpl; [constructor|].
  destruct (f x); [|done]. constructor; [|done].
  rewrite elem_of_list_filter. tauto.
Qed.

(** Two members with the same image under a duplicate-free projection are
    the same member. *)
Lemma NoDup_map_inj (g : A → B) (l : list A) (x y : A) :
  NoDup (map g l) → x ∈ l → y ∈ l → g x = g y → x = y.
Proof.
  intros Hnd [i Hi]%list_elem_of_lookup [j Hj]%list_elem_of_lookup Hg.
  assert (i = j) as ->; [|congruence].
  eapply NoDup_lookup; [exact Hnd| |]; rewrite list_lookup_fmap.
  - by rewrite Hi.
  - rewrite Hj. simpl. by rewrite Hg.
Qed.

Lemma NoDup_map_filter (g : A → B) (f : A → bool) (l : list A) :
  NoDup (map g l) → NoDup (map g (List.filter f l)).
Proof.
  induction l as [|x l IH]; simpl; intros Hnd; [constructor|].
  apply NoDup_cons in Hnd as [Hx Hnd]. destruct (f x); simpl; [|by apply IH].
  constructor; [|by apply IH].
  intros (y & Hy & Hin)%list_elem_of_fmap. apply elem_of_list_filter in Hin as [Hin _].
  apply Hx, list_elem_of_fmap. eauto.
Qed.

End ListFacts.
(** *** [build_network] *)

Section NetworkFacts.
Import Py Pandas Prepare.
Variable set_union : list Z → list Z → list Z.
Hypothesis set_union_NoDup : ∀ a b, NoDup (set_union a b).
Hypothesis set_union_elem : ∀ a b x, x ∈ set_union a b ↔ x ∈ a ∨ x ∈ b.

Local Abbreviation non_dataset_users := (non_dataset_users set_union).
Local Abbreviation extended_ids := (extended_ids set_union).
Local Abbreviation build_network := (build_network set_union).

Lemma kept_edges_source (elem_to_id : dict) (all_edges : list edge) (e : edge) :
  e ∈ kept_edges elem_to_id all_edges ↔
  e ∈ all_edges ∧ source_id e ∈ map fst elem_to_id.
Proof.
  unfold kept_edges. by rewrite elem_of_list_filter, dict_contains_spec.
Qed.

(** The added users are the targets of kept edges that the roster lacks,
    each once. *)
Lemma non_dataset_users_spec (elem_to_id : dict) (all_edges : list edge) (x : Z) :
  x ∈ non_dataset_users elem_to_id all_edges ↔
  (x ∉ map fst elem_to_id)
  ∧ ∃ e, e ∈ kept_edges elem_to_id all_edges ∧ target_id e = x.
Proof.
  unfold Prepare.non_dataset_users.
  rewrite elem_of_list_filter, set_union_elem, !unique_elem_of, !elem_of_nil.
  rewrite negb_true_iff, <- not_true_iff_false, dict_contains_spec.
  split.
  - intros [[[[]|Hs]|[[]|Ht]] Hnew]; (split; [done|]).
    + apply list_elem_of_fmap in Hs as (e & -> & He).
      exfalso. apply Hnew. by apply kept_edges_source in He as [_ ?].
    + apply list_elem_of_fmap in Ht as (e & -> & He). eauto.
  - intros [Hnew (e & He & <-)]. split; [|done].
    right. right. apply list_elem_of_fmap. eauto.
Qed.

Lemma non_dataset_users_NoDup (elem_to_id : dict) (all_edges : list edge) :
  NoDup (non_dataset_users elem_to_id all_edges).
Proof. apply NoDup_list_filter, set_union_NoDup. Qed.

Lemma extended_ids_length (elem_to_id : dict) (all_edges : list edge) :
  length (extended_ids elem_to_id all_edges)
  = (length elem_to_id + length (non_dataset_users elem_to_id all_edges))%nat.
Proof.
  unfold Prepare.extended_ids. rewrite length_app, length_zip, length_seq. lia.
Qed.

(** What [dict_get] finds in the extended mapping: the roster's row for a
    roster user, and [len(elem_to_id) + k] for the [k]-th added user. *)
Lemma extended_ids_roster (elem_to_id : dict) (all_edges : list edge) (x : Z) (i : nat) :
  dict_get elem_to_id x = Some i →
  dict_get (extended_ids elem_to_id all_edges) x = Some i.
Proof. intros Hx. unfold Prepare.extended_ids. by rewrite dict_get_app, Hx. Qed.

Lemma extended_ids_new (elem_to_id : dict) (all_edges : list edge) (x : Z) (k : nat) :
  non_dataset_users elem_to_id all_edges !! k = Some x →
  dict_get (extended_ids elem_to_id all_edges) x = Some (length elem_to_id + k)%nat.
Proof.
  intros Hk. unfold Prepare.extended_ids. rewrite dict_get_app.
  assert (dict_get elem_to_id x = None) as ->.
  { apply dict_get_None. apply list_elem_of_lookup_2 in Hk.
    by apply non_dataset_users_spec in Hk as [? _]. }
  apply dict_get_NoDup.
  - rewrite fst_zip by (rewrite length_seq; lia). apply non_dataset_users_NoDup.
  - apply list_elem_of_lookup. exists k. apply lookup_zip_Some. split; [done|].
    apply lookup_seq. split; [done|]. by eapply lookup_lt_Some.
Qed.

Lemma extended_ids_values (elem_to_id : dict) (all_edges : list edge) :
  map snd (extended_ids elem_to_id all_edges)
  = map snd elem_to_id
    ++ seq (length elem_to_id) (length (non_dataset_users elem_to_id all_edges)).
Proof.
  unfold Prepare.extended_ids. rewrite map_app. f_equal.
  apply snd_zip. rewrite length_seq. lia.
Qed.

Lemma extended_ids_update (elem_to_id : dict) (all_edges : list edge) :
  let new_users := non_dataset_users elem_to_id all_edges in
  dict_update elem_to_id
    (to_dict (zip new_users (seq (length elem_to_id) (length new_users))))
  = extended_ids elem_to_id all_edges.
Proof.
  intros new_users.
  assert (Hkeys : map fst (zip new_users (seq (length elem_to_id) (length new_users)))
                  = new_users).
  { apply fst_zip. rewrite length_seq. lia. }
  rewrite to_dict_NoDup by (rewrite Hkeys; apply non_dataset_users_NoDup).
  apply dict_update_new.
  - rewrite Hkeys. apply non_dataset_users_NoDup.
  - intros k. rewrite Hkeys. intros Hk. by apply non_dataset_users_spec in Hk as [? _].
Qed.

(** [build_network] on a roster that maps distinct users to distinct rows
    below its length, and an edge table that has rows, one per pair: what
    it writes, and what each cell of the matrix stores. *)
Lemma build_network_run (name : string) (elem_to_id : dict)
  (destination_path : string) (overwrite : bool) (processed : processed_store)
  (all_edges : list edge) :
  let edges_path := destination_path </> ("user." +:+ name +:+ "_edges.all.json.gz") in
  let id_to_node_path :=
    destination_path </> ("network." +:+ name +:+ ".target_ids.json.gz") in
  let adjacency_matrix_path :=
    destination_path </> ("network." +:+ name +:+ ".matrix.npz") in
  let id_to_node := extended_ids elem_to_id all_edges in
  NoDup (map fst elem_to_id) →
  NoDup (map snd elem_to_id) →
  Forall (fun row => (row < length elem_to_id)%nat) (map snd elem_to_id) →
  overwrite = true ∨ processed !! id_to_node_path = None
  ∨ processed !! adjacency_matrix_path = None →
  read_edges processed edges_path = Ok all_edges →
  all_edges ≠ [] →
  NoDup (map (fun e => (source_id e, target_id e)) all_edges) →
  ∃ m,
    build_network name elem_to_id destination_path overwrite processed
    = Ok (<[adjacency_matrix_path := MatrixNpz m]>
            (<[id_to_node_path := TargetIds id_to_node]> processed)) ∧
    shape m = (length elem_to_id, length id_to_node) ∧
    (∀ e, e ∈ kept_edges elem_to_id all_edges →
       ∃ i j, dict_get id_to_node (source_id e) = Some i
              ∧ dict_get id_to_node (target_id e) = Some j
              ∧ cells m !! (i, j)
                = if decide (frequency e = 0) then None else Some (frequency e)) ∧
    (∀ i j, is_Some (cells m !! (i, j)) →
       ∃ e, e ∈ kept_edges elem_to_id all_edges
            ∧ dict_get id_to_node (source_id e) = Some i
            ∧ dict_get id_to_node (target_id e) = Some j).
Proof.
  intros edges_path id_to_node_path adjacency_matrix_path id_to_node
    Hkeys Hvalues Hrange Hwhy Hread Hrows Hpairs.
  set (edges := kept_edges elem_to_id all_edges).
  set (fi := fun e => default 0%nat (dict_get id_to_node (source_id e))).
  set (fj := fun e => default 0%nat (dict_get id_to_node (target_id e))).
  (* every kept edge finds both its rows, inside the shape *)
  assert (Hnodes : ∀ e, e ∈ edges →
    ∃ i j, dict_get id_to_node (source_id e) = Some i
           ∧ dict_get id_to_node (target_id e) = Some j
           ∧ (i < length elem_to_id)%nat ∧ (j < length id_to_node)%nat).
  { intros e He. pose proof He as [_ Hs]%kept_edges_source.
    apply dict_get_is_Some in Hs as [i Hi].
    assert (Hi' : (i < length elem_to_id)%nat).
    { rewrite Forall_forall in Hrange. apply Hrange.
      apply dict_get_Some in Hi. apply list_elem_of_fmap. by exists (source_id e, i). }
    exists i. unfold id_to_node. rewrite extended_ids_length.
    destruct (dict_get elem_to_id (target_id e)) as [j|] eqn:Hj.
    - exists j. rewrite !(extended_ids_roster _ _ _ _ Hi), (extended_ids_roster _ _ _ _ Hj).
      repeat split; [done|].
      assert ((j < length elem_to_id)%nat); [|lia].
      rewrite Forall_forall in Hrange. apply Hrange.
      apply dict_get_Some in Hj. apply list_elem_of_fmap. by exists (target_id e, j).
    - assert (Hnew : target_id e ∈ non_dataset_users elem_to_id all_edges).
      { apply non_dataset_users_spec. split; [by apply dict_get_None | eauto]. }
      apply list_elem_of_lookup in Hnew as [k Hk].
      exists (length elem_to_id + k)%nat.
      rewrite (extended_ids_roster _ _ _ _ Hi), (extended_ids_new _ _ _ _ Hk).
      repeat split; [done|]. apply lookup_lt_Some in Hk. lia. }
  (* the mapping is injective on what it finds *)
  assert (Hinj : ∀ x y v, dict_get id_to_node x = Some v →
                          dict_get id_to_node y = Some v → x = y).
  { intros x y v Hx%dict_get_Some Hy%dict_get_Some.
    assert (Hnd : NoDup (map snd id_to_node)).
    { unfold id_to_node. rewrite extended_ids_values. apply NoDup_app.
      split; [done|]. split; [|apply NoDup_seq].
      intros row Hrow [Hge _]%elem_of_seq.
      rewrite Forall_forall in Hrange. apply Hrange in Hrow. lia. }
    pose proof (NoDup_map_inj snd id_to_node (x, v) (y, v) Hnd Hx Hy eq_refl). congruence. }
  assert (Hcells : NoDup (map (fun e => (fi e, fj e)) edges)).
  { apply NoDup_fmap_2_strong.
    - intros e e' He He' Heq.
      destruct (Hnodes e He) as (i & j & Hi & Hj & _).
      destruct (Hnodes e' He') as (i' & j' & Hi' & Hj' & _).
      unfold fi, fj in Heq. rewrite Hi, Hj, Hi', Hj' in Heq. simpl in Heq.
      injection Heq as <- <-.
      apply (NoDup_map_inj (fun e => (source_id e, target_id e)) edges);
        [by apply NoDup_map_filter | done | done |].
      f_equal; eauto.
    - eapply NoDup_fmap_1. by apply (NoDup_map_filter _ _ _ Hpairs). }
  (* run the function *)
  unfold Prepare.build_network.
  fold edges_path id_to_node_path adjacency_matrix_path.
  assert (negb overwrite
          && (exists_ processed id_to_node_path
              && exists_ processed adjacency_matrix_path) = false) as ->.
  { unfold exists_. destruct Hwhy as [->|[Hnone|Hnone]]; [done| |]; rewrite Hnone;
      rewrite (bool_decide_eq_false_2 (is_Some None)) by (by intros [? ?]);
      by rewrite ?andb_false_r. }
  rewrite Hread, mbind_Ok.
  assert (require_columns all_edges = Ok all_edges) as -> by (by destruct all_edges).
  rewrite mbind_Ok. cbv zeta.
  change (List.filter (fun e => dict_contains elem_to_id (source_id e)) all_edges)
    with edges.
  change (List.filter (fun x => negb (dict_contains elem_to_id x))
            (set_union (unique [] (map source_id edges))
                       (unique [] (map target_id edges))))
    with (non_dataset_users elem_to_id all_edges).
  rewrite extended_ids_update. fold id_to_node.
  rewrite (for_fold_cells fi fj frequency).
  2:{ intros m' e He. destruct (Hnodes e He) as (i & j & Hi & Hj & _).
      unfold fi, fj. by rewrite Hi, Hj. }
  2:{ intros e He. destruct (Hnodes e He) as (i & j & Hi & Hj & ? & ?).
      unfold fi, fj. rewrite Hi, Hj. simpl. done. }
  simpl. eexists. split; [reflexivity|]. simpl. split; [done|]. split.
  - intros e He. destruct (Hnodes e He) as (i & j & Hi & Hj & _).
    exists i, j. split; [done|]. split; [done|].
    pose proof (foldl_store_lookup_in (fun e => (fi e, fj e)) frequency edges ∅ e
                  Hcells He) as Hcell.
    cbv beta in Hcell.
    assert (Hfi : fi e = i) by (unfold fi; by rewrite Hi).
    assert (Hfj : fj e = j) by (unfold fj; by rewrite Hj).
    by rewrite <- Hfi, <- Hfj.
  - intros i j Hsome.
    apply (foldl_store_lookup_inv (fun e => (fi e, fj e)) frequency) in Hsome
      as [[? Hempty]|(e & He & Hkey)]; [by rewrite lookup_empty in Hempty|].
    exists e. split; [done|].
    destruct (Hnodes e He) as (i' & j' & Hi & Hj & _).
    unfold fi, fj in Hkey. rewrite Hi, Hj in Hkey. simpl in Hkey.
    by injection Hkey as <- <-.
Qed.

(** C7. [build_network] on a roster that maps distinct users to distinct
    rows below its length, and an edge table that has rows, one per pair: it
    keeps the edges whose source is in the roster, writes the mapping in
    which every roster user keeps its row and the users it adds (the
    targets of kept edges that the roster lacks, each once) are numbered
    consecutively from [len(elem_to_id)] in the order in which the Python
    set of the kept edges' user ids yields them, and writes a matrix of
    shape [len(elem_to_id)] by the size of that mapping in which the cell
    at the rows of a kept edge's source and target is the edge's
    frequency. *)
Theorem build_network_spec (name : string) (elem_to_id : dict)
  (destination_path : string) (overwrite : bool) (processed : processed_store)
  (all_edges : list edge) :
  let edges_path := destination_path </> ("user." +:+ name +:+ "_edges.all.json.gz") in
  let id_to_node_path :=
    destination_path </> ("network." +:+ name +:+ ".target_ids.json.gz") in
  let adjacency_matrix_path :=
    destination_path </> ("network." +:+ name +:+ ".matrix.npz") in
  let edges := kept_edges elem_to_id all_edges in
  let new_users :=
    List.filter (fun x => negb (dict_contains elem_to_id x))
      (set_union (unique [] (map source_id edges)) (unique [] (map target_id edges))) in
  NoDup (map fst elem_to_id) →
  NoDup (map snd elem_to_id) →
  Forall (fun row => (row < length elem_to_id)%nat) (map snd elem_to_id) →
  overwrite = true ∨ processed !! id_to_node_path = None
  ∨ processed !! adjacency_matrix_path = None →
  read_edges processed edges_path = Ok all_edges →
  all_edges ≠ [] →
  NoDup (map (fun e => (source_id e, target_id e)) all_edges) →
  ∃ id_to_node m,
    build_network name elem_to_id destination_path overwrite processed
    = Ok (<[adjacency_matrix_path := MatrixNpz m]>
            (<[id_to_node_path := TargetIds id_to_node]> processed)) ∧
    (∀ e, e ∈ edges ↔ e ∈ all_edges ∧ source_id e ∈ map fst elem_to_id) ∧
    id_to_node
    = elem_to_id ++ zip new_users (seq (length elem_to_id) (length new_users)) ∧
    NoDup new_users ∧
    (∀ x, x ∈ new_users ↔
          (x ∉ map fst elem_to_id) ∧ ∃ e, e ∈ edges ∧ target_id e = x) ∧
    (∀ x i, dict_get elem_to_id x = Some i → dict_get id_to_node x = Some i) ∧
    (∀ k x, new_users !! k = Some x →
            dict_get id_to_node x = Some (length elem_to_id + k)%nat) ∧
    shape m = (length elem_to_id, length id_to_node) ∧
    (∀ e, e ∈ edges →
       ∃ i j, dict_get id_to_node (source_id e) = Some i
              ∧ dict_get id_to_node (target_id e) = Some j
              ∧ cell m i j = frequency e).
Proof.
  intros edges_path id_to_node_path adjacency_matrix_path edges new_users
    Hkeys Hvalues Hrange Hwhy Hread Hrows Hpairs.
  destruct (build_network_run name elem_to_id destination_path overwrite processed
              all_edges Hkeys Hvalues Hrange Hwhy Hread Hrows Hpairs)
    as (m & Hrun & Hshape & Hcells & _).
  exists (extended_ids elem_to_id all_edges), m.
  split; [exact Hrun|].
  split; [intros e; apply kept_edges_source|].
  split; [reflexivity|].
  split; [apply non_dataset_users_NoDup|].
  split; [apply non_dataset_users_spec|].
  split; [intros x i; apply extended_ids_roster|].
  split; [intros k x; apply extended_ids_new|].
  split; [exact Hshape|].
  intros e He. destruct (Hcells e He) as (i & j & Hi & Hj & Hcell).
  exists i, j. split; [done|]. split; [done|].
  unfold cell. rewrite Hcell. by case_decide.
Qed.

(** [build_network] under the same conditions: the matrix stores a cell
    exactly for the kept edges whose frequency is not zero, at the rows of
    the edge's source and target, and the cell holds that frequency. *)
Theorem build_network_stored_cells (name : string) (elem_to_id : dict)
  (destination_path : string) (overwrite : bool) (processed : processed_store)
  (all_edges : list edge) :
  let edges_path := destination_path </> ("user." +:+ name +:+ "_edges.all.json.gz") in
  let id_to_node_path :=
    destination_path </> ("network." +:+ name +:+ ".target_ids.json.gz") in
  let adjacency_matrix_path :=
    destination_path </> ("network." +:+ name +:+ ".matrix.npz") in
  let id_to_node := extended_ids elem_to_id all_edges in
  NoDup (map fst elem_to_id) →
  NoDup (map snd elem_to_id) →
  Forall (fun row => (row < length elem_to_id)%nat) (map snd elem_to_id) →
  overwrite = true ∨ processed !! id_to_node_path = None
  ∨ processed !! adjacency_matrix_path = None →
  read_edges processed edges_path = Ok all_edges →
  all_edges ≠ [] →
  NoDup (map (fun e => (source_id e, target_id e)) all_edges) →
  ∃ m,
    build_network name elem_to_id destination_path overwrite processed
    = Ok (<[adjacency_matrix_path := MatrixNpz m]>
            (<[id_to_node_path := TargetIds id_to_node]> processed)) ∧
    (∀ i j v,
       cells m !! (i, j) = Some v ↔
       v ≠ 0 ∧
       ∃ e, e ∈ kept_edges elem_to_id all_edges
            ∧ dict_get id_to_node (source_id e) = Some i
            ∧ dict_get id_to_node (target_id e) = Some j
            ∧ frequency e = v).
Proof.
  intros edges_path id_to_node_path adjacency_matrix_path id_to_node
    Hkeys Hvalues Hrange Hwhy Hread Hrows Hpairs.
  destruct (build_network_run name elem_to_id destination_path overwrite processed
              all_edges Hkeys Hvalues Hrange Hwhy Hread Hrows Hpairs)
    as (m & Hrun & _ & Hcells & Hstored).
  subst id_to_node. exists m. split; [exact Hrun|].
  intros i j v. split.
  - intros Hv.
    destruct (Hstored i j) as (e & He & Hi & Hj); [by rewrite Hv|].
    destruct (Hcells e He) as (i' & j' & Hi' & Hj' & Hcell).
    rewrite Hi in Hi'. rewrite Hj in Hj'. injection Hi' as <-. injection Hj' as <-.
    rewrite Hv in Hcell. destruct (decide (frequency e = 0)) as [Hzero|Hnz]; [done|].
    injection Hcell as ->. split; [done|]. by exists e.
  - intros (Hnz & e & He & Hi & Hj & <-).
    destruct (Hcells e He) as (i' & j' & Hi' & Hj' & Hcell).
    rewrite Hi in Hi'. rewrite Hj in Hj'. injection Hi' as <-. injection Hj' as <-.
    by rewrite Hcell, decide_False.
Qed.

End NetworkFacts.
(** *** [build_network] with the ascending set order *)

Section NetworkExampleFacts.
Import Py Pandas Prepare PrepareExamples.

Lemma ascending_union_NoDup (a b : list Z) : NoDup (ascending_union a b).
Proof.
  unfold ascending_union. rewrite merge_sort_Permutation.
  apply unique_NoDup. constructor.
Qed.

Lemma ascending_union_elem (a b : list Z) (x : Z) :
  x ∈ ascending_union a b ↔ x ∈ a ∨ x ∈ b.
Proof.
  unfold ascending_union.
  rewrite merge_sort_Permutation, unique_elem_of, elem_of_nil, elem_of_app. tauto.
Qed.

(** Targets 5 and 3 are seen in this order; the set yields 3 first, so 3
    is numbered 2 and 5 is numbered 3, where the order of first appearance
    would number 5 before 3. *)
Lemma build_network_first_seen_counterexample :
  read_edges retweets0 (dir </> "user.retweet_edges.all.json.gz")
  = Ok [mk_edge 1 5 4; mk_edge 2 3 1; mk_edge 7 1 1]
  ∧ (fun processed => processed !! (dir </> "network.retweet.target_ids.json.gz"))
      <$> build_network ascending_union "retweet" roster0 dir false retweets0
    = Ok (Some (TargetIds [(1, 0%nat); (2, 1%nat); (3, 2%nat); (5, 3%nat)]))
  ∧ first_seen_ids roster0 [mk_edge 1 5 4; mk_edge 2 3 1; mk_edge 7 1 1]
    = [(1, 0%nat); (2, 1%nat); (5, 2%nat); (3, 3%nat)].
Proof. repeat split; vm_compute; reflexivity. Qed.

(** An edge table without rows has no columns to select. *)
Example build_network_no_rows :
  build_network ascending_union "retweet" roster0 dir false
    {[ dir </> "user.retweet_edges.all.json.gz" := EdgesAll [] ]}
  = Raise KeyError.
Proof. vm_compute. reflexivity. Qed.

(** A roster row at or beyond the roster's length is outside the matrix. *)
Example build_network_row_out_of_range :
  build_network ascending_union "retweet" [(1, 0%nat); (2, 5%nat)] dir false retweets0
  = Raise IndexError.
Proof. vm_compute. reflexivity. Qed.

Lemma build_network_spec_witness :
  ∃ m,
    build_network ascending_union "retweet" roster0 dir false retweets0
    = Ok (<[dir </> "network.retweet.matrix.npz" := MatrixNpz m]>
            (<[dir </> "network.retweet.target_ids.json.gz"
               := TargetIds [(1, 0%nat); (2, 1%nat); (3, 2%nat); (5, 3%nat)]]>
               retweets0)) ∧
    shape m = (2%nat, 4%nat) ∧ cell m 0 3 = 4 ∧ cell m 1 2 = 1.
Proof.
  destruct (build_network_spec ascending_union ascending_union_NoDup
              ascending_union_elem "retweet" roster0 dir false retweets0
              [mk_edge 1 5 4; mk_edge 2 3 1; mk_edge 7 1 1])
    as (id_to_node & m & Hrun & _ & Hids & _ & _ & _ & _ & Hshape & Hcells).
  - apply (bool_decide_unpack _). vm_compute. exact I.
  - apply (bool_decide_unpack _). vm_compute. exact I.
  - repeat constructor.
  - right. left. vm_compute. reflexivity.
  - vm_compute. reflexivity.
  - discriminate.
  - apply (bool_decide_unpack _). vm_compute. exact I.
  - vm_compute in Hids. subst id_to_node.
    exists m. split; [exact Hrun|]. split; [exact Hshape|]. split.
    + destruct (Hcells (mk_edge 1 5 4)) as (i & j & Hi & Hj & Hcell).
      { apply list_elem_of_In. vm_compute. auto. }
      vm_compute in Hi, Hj. injection Hi as <-. injection Hj as <-. exact Hcell.
    + destruct (Hcells (mk_edge 2 3 1)) as (i & j & Hi & Hj & Hcell).
      { apply list_elem_of_In. vm_compute. auto. }
      vm_compute in Hi, Hj. injection Hi as <-. injection Hj as <-. exact Hcell.
Defined.

(** The edge from 2 to 3 has frequency zero: its cell is not stored. *)
Lemma build_network_stored_cells_witness :
  ∃ m,
    build_network ascending_union "retweet" roster0 dir false retweets1
    = Ok (<[dir </> "network.retweet.matrix.npz" := MatrixNpz m]>
            (<[dir </> "network.retweet.target_ids.json.gz"
               := TargetIds [(1, 0%nat); (2, 1%nat); (3, 2%nat); (5, 3%nat)]]>
               retweets1)) ∧
    cells m !! (0%nat, 3%nat) = Some 4 ∧ cells m !! (1%nat, 2%nat) = None.
Proof.
  destruct (build_network_stored_cells ascending_union ascending_union_NoDup
              ascending_union_elem "retweet" roster0 dir false retweets1
              [mk_edge 1 5 4; mk_edge 2 3 0; mk_edge 7 1 1])
    as (m & Hrun & Hcells).
  - apply (bool_decide_unpack _). vm_compute. exact I.
  - apply (bool_decide_unpack _). vm_compute. exact I.
  - repeat constructor.
  - right. left. vm_compute. reflexivity.
  - vm_compute. reflexivity.
  - discriminate.
  - apply (bool_decide_unpack _). vm_compute. exact I.
  - exists m. split; [exact Hrun|]. split.
    + apply Hcells. split; [discriminate|].
      exists (mk_edge 1 5 4). split; [apply list_elem_of_In; vm_compute; auto|].
      repeat split; vm_compute; reflexivity.
    + destruct (cells m !! (1%nat, 2%nat)) as [v|] eqn:Hv; [|reflexivity].
      apply Hcells in Hv as (Hnz & e & He & Hi & Hj & Hf).
      apply list_elem_of_In in He. vm_compute in He.
      destruct He as [<-|[<-|[]]].
      * vm_compute in Hi. discriminate Hi.
      * vm_compute in Hf. congruence.
Defined.

End NetworkExampleFacts.
(** *** [group_user_interactions] and [count_user_tweets] *)

Section OrderFacts.
Import Pandas.

#[export] Instance flip_Z_le_total : Total (flip Z.le).
Proof. intros a b. unfold flip. lia. Qed.

#[export] Instance on_total {A K} (le : relation K) `{Htotal : !Total le} (key : A → K) :
  Total (on le key).
Proof. intros a b. unfold on. apply Htotal. Qed.

Lemma sort_values_Sorted {A} (column : A → Z) (rows : list A) :
  Sorted (on Z.le column) (sort_values column rows).
Proof. apply Sorted_merge_sort, _. Qed.

Lemma sort_values_desc_Sorted {A} (column : A → Z) (rows : list A) :
  Sorted (on (flip Z.le) column) (sort_values_desc column rows).
Proof. apply Sorted_merge_sort, _. Qed.

End OrderFacts.

Section InteractionFacts.
Import Py Pandas Prepare.
Variable dask_order : ∀ K : Type, list (list (K * Z)) → list (K * Z) → list (K * Z).
Hypothesis dask_order_Permutation :
  ∀ K (parts : list (list (K * Z))) groups, dask_order K parts groups ≡ₚ groups.

Local Abbreviation dask_groupby_sum := (dask_groupby_sum dask_order).
Local Abbreviation group_user_interactions := (group_user_interactions dask_order).
Local Abbreviation count_user_tweets := (count_user_tweets dask_order).

Lemma edge_of_key_pair (kv : Z * Z * Z) :
  (source_id (edge_of_key kv), target_id (edge_of_key kv)) = kv.1.
Proof. by destruct kv as [[??]?]. Qed.

(** When it does not skip and the frequencies read are [int64],
    [group_user_interactions] writes a table with one row per pair of
    users that occurs in the partitions, in the order dask gives, whose
    frequency is the 64-bit sum of the pair's frequencies. *)
Theorem group_user_interactions_table (interaction_dd : list table)
  (interaction_name destination_path : string) (overwrite : bool)
  (processed : processed_store) (rows : list edge) :
  let interactions_target :=
    destination_path </> ("user." +:+ interaction_name +:+ "_edges.all.json.gz") in
  let pair (e : edge) := (source_id e, target_id e) in
  overwrite = true ∨ processed !! interactions_target = None →
  compute edgelist_rows interaction_dd = Ok rows →
  Forall int64 (map frequency rows) →
  ∃ interactions,
    group_user_interactions interaction_dd interaction_name destination_path overwrite
      processed
    = Ok (<[interactions_target := EdgesAll interactions]> processed) ∧
    NoDup (map pair interactions) ∧
    ∀ e, e ∈ interactions ↔
         pair e ∈ map pair rows
         ∧ frequency e = wrap64 (total (pair e) (map edge_key rows)).
Proof.
  intros interactions_target pair Hwhy (parts & Hparts & ->)%compute_parts Hint.
  unfold Prepare.group_user_interactions. fold interactions_target.
  assert (negb overwrite && exists_ processed interactions_target = false) as ->.
  { unfold exists_. destruct Hwhy as [->| ->]; [done|].
    rewrite (bool_decide_eq_false_2 (is_Some None)) by (by intros [? ?]).
    apply andb_false_r. }
  rewrite Hparts, mbind_Ok. cbv zeta.
  set (rows := concat parts) in *.
  set (sums := dask_groupby_sum (map (map edge_key) parts)).
  assert (Hsums : sums ≡ₚ group_sums (map edge_key rows)).
  { unfold sums, Prepare.dask_groupby_sum. rewrite dask_order_Permutation.
    unfold rows. by rewrite concat_map. }
  assert (Hpairs : map pair (map edge_of_key sums) = map fst sums).
  { rewrite map_map. apply map_ext. intros kv. apply edge_of_key_pair. }
  assert (Hkeys : map fst (map edge_key rows) = map pair rows).
  { rewrite map_map. by apply map_ext. }
  assert (Hvalues : Forall int64 (map snd (map edge_key rows))).
  { by rewrite map_map. }
  eexists. split; [reflexivity|]. split.
  - rewrite Hpairs. by eapply groups_NoDup.
  - intros e. rewrite <- Hkeys.
    rewrite <- (groups_spec sums (map edge_key rows) Hsums (pair e) (frequency e) Hvalues).
    split.
    + intros ([[s t] f] & -> & Hin)%list_elem_of_fmap. done.
    + intros Hin. apply list_elem_of_fmap. exists (pair e, frequency e).
      split; [by destruct e | done].
Qed.

(** When it does not skip, the partitions can be read and their counts
    are [int64], [count_user_tweets] writes one row per user that occurs
    in them, with the 64-bit sum of the user's counts, in ascending order
    of that sum. *)
Theorem count_user_tweets_table (interim : interim_store) (data_paths : list string)
  (destination_path : string) (overwrite : bool) (processed : processed_store)
  (dd : list table) (rows : list (Z * Z)) :
  let count_target := destination_path </> "user.total_tweets.json.gz" in
  overwrite = true ∨ processed !! count_target = None →
  dd_from_paths interim (map (fun d => d </> "tweets_per_user.json.gz") data_paths) None
  = Ok dd →
  compute tweets_per_user_rows dd = Ok rows →
  Forall int64 (map snd rows) →
  ∃ tweet_dd,
    count_user_tweets interim data_paths destination_path overwrite processed
    = Ok (<[count_target := TotalTweets tweet_dd]> processed) ∧
    NoDup (map fst tweet_dd) ∧
    Sorted (on Z.le snd) tweet_dd ∧
    ∀ u c, (u, c) ∈ tweet_dd ↔ u ∈ map fst rows ∧ c = wrap64 (total u rows).
Proof.
  intros count_target Hwhy Hdd (parts & Hparts & ->)%compute_parts Hint.
  unfold Prepare.count_user_tweets. fold count_target.
  assert (negb overwrite && exists_ processed count_target = false) as ->.
  { unfold exists_. destruct Hwhy as [->| ->]; [done|].
    rewrite (bool_decide_eq_false_2 (is_Some None)) by (by intros [? ?]).
    apply andb_false_r. }
  rewrite Hdd, mbind_Ok, Hparts, mbind_Ok. cbv zeta.
  eexists. split; [reflexivity|].
  assert (Hperm : sort_values snd (dask_groupby_sum parts) ≡ₚ group_sums (concat parts)).
  { unfold sort_values. rewrite merge_sort_Permutation. apply dask_order_Permutation. }
  split; [|split].
  - by eapply groups_NoDup.
  - apply sort_values_Sorted.
  - intros u c. by apply groups_spec.
Qed.

End InteractionFacts.

Section InteractionExampleFacts.
Import Py Pandas Prepare PrepareExamples.

Example group_user_interactions_replies :
  group_user_interactions first_appearance replies_dd0 "reply" dir false ∅
  = Ok {[ dir </> "user.reply_edges.all.json.gz"
          := EdgesAll [mk_edge 2 1 1; mk_edge 1 2 5; mk_edge 1 1 1] ]}.
Proof. vm_compute. reflexivity. Qed.

Lemma group_user_interactions_table_witness :
  ∃ interactions,
    group_user_interactions first_appearance replies_dd0 "reply" dir false ∅
    = Ok (<[dir </> "user.reply_edges.all.json.gz" := EdgesAll interactions]> ∅) ∧
    mk_edge 1 2 5 ∈ interactions.
Proof.
  destruct (group_user_interactions_table first_appearance first_appearance_Permutation
              replies_dd0 "reply" dir false ∅
              [mk_edge 2 1 1; mk_edge 1 2 3; mk_edge 1 2 2; mk_edge 1 1 1])
    as (interactions & Hrun & _ & Hrows).
  - right. reflexivity.
  - reflexivity.
  - apply (bool_decide_unpack _). vm_compute. exact I.
  - exists interactions. split; [exact Hrun|]. apply Hrows. split.
    + apply list_elem_of_In. vm_compute. auto.
    + vm_compute. reflexivity.
Defined.

Example count_user_tweets_interim1 :
  count_user_tweets first_appearance interim1 data_paths0 dir false ∅
  = Ok {[ dir </> "user.total_tweets.json.gz"
          := TotalTweets [(2, 2); (3, 5); (1, 7)] ]}.
Proof. vm_compute. reflexivity. Qed.

Lemma count_user_tweets_table_witness :
  ∃ tweet_dd,
    count_user_tweets first_appearance interim1 data_paths0 dir false ∅
    = Ok (<[dir </> "user.total_tweets.json.gz" := TotalTweets tweet_dd]> ∅) ∧
    (1, 7) ∈ tweet_dd.
Proof.
  destruct (count_user_tweets_table first_appearance first_appearance_Permutation
              interim1 data_paths0 dir false ∅
              [TweetsPerUser [(1, 4); (2, 1)]; TweetsPerUser [(3, 5); (1, 3); (2, 1)]]
              [(1, 4); (2, 1); (3, 5); (1, 3); (2, 1)])
    as (tweet_dd & Hrun & _ & _ & Hrows).
  - right. reflexivity.
  - vm_compute. reflexivity.
  - reflexivity.
  - apply (bool_decide_unpack _). vm_compute. exact I.
  - exists tweet_dd. split; [exact Hrun|]. apply Hrows. split.
    + apply list_elem_of_In. vm_compute. auto.
    + vm_compute. reflexivity.
Defined.

End InteractionExampleFacts.
(** *** The roster of [group_users] *)

Section DropDuplicatesFacts.
Import Pandas.
Context {A K : Type} `{EqDecision K}.

(** [drop_duplicates(keep="last")] keeps, for every key, the last row that
    has it, and nothing else. *)
Lemma drop_duplicates_last_spec (key : A → K) (rows : list A) (r : A) :
  r ∈ drop_duplicates_last key rows ↔
  ∃ l1 l2, rows = l1 ++ r :: l2 ∧ key r ∉ map key l2.
Proof.
  induction rows as [|x rows IH]; simpl.
  - split; [by intros ?%elem_of_nil | by intros ([|??] & ? & ? & _)].
  - case_decide as Hx.
    + rewrite IH. split.
      * intros (l1 & l2 & -> & Hlast). by exists (x :: l1), l2.
      * intros ([|y l1] & l2 & Heq & Hlast); simplify_eq/=; [done|]. eauto.
    + rewrite elem_of_cons, IH. split.
      * intros [->|(l1 & l2 & -> & Hlast)]; [by exists [], rows|].
        by exists (x :: l1), l2.
      * intros ([|y l1] & l2 & Heq & Hlast); simplify_eq/=; [by left|]. eauto.
Qed.

Lemma drop_duplicates_last_NoDup (key : A → K) (rows : list A) :
  NoDup (map key (drop_duplicates_last key rows)).
Proof.
  induction rows as [|x rows IH]; simpl; [constructor|].
  case_decide as Hx; [done|]. simpl. constructor; [|done].
  intros (y & Hkey & (l1 & l2 & -> & _)%drop_duplicates_last_spec)%list_elem_of_fmap.
  apply Hx. rewrite Hkey, map_app. simpl. set_solver.
Qed.

End DropDuplicatesFacts.

Section RosterFacts.
Import Py Pandas Prepare.

Lemma join_counts_spec (users : list user) (tweet_count : list (Z * Z))
  (u : user) (c : Z) :
  (u, c) ∈ join_counts users tweet_count ↔ u ∈ users ∧ (user_id u, c) ∈ tweet_count.
Proof.
  unfold join_counts. rewrite list_elem_of_In, in_flat_map. split.
  - intros (u' & Hu' & Hin). apply in_map_iff in Hin as ([i c'] & [= -> ->] & Hin).
    apply filter_In in Hin as [Hin Heq]. apply bool_decide_eq_true in Heq.
    simpl in Heq. subst i. by rewrite !list_elem_of_In.
  - intros [Hu Hc]. exists u. split; [by apply list_elem_of_In|].
    apply in_map_iff. exists (user_id u, c). split; [done|].
    apply filter_In. split; [by apply list_elem_of_In | by apply bool_decide_eq_true].
Qed.

Lemma join_counts_NoDup (users : list user) (tweet_count : list (Z * Z)) :
  NoDup (map user_id users) → NoDup (map fst tweet_count) →
  NoDup (map (fun row => user_id row.1) (join_counts users tweet_count)).
Proof.
  intros Husers Hcounts. induction users as [|u users IH]; simpl; [constructor|].
  simpl in Husers. apply NoDup_cons in Husers as [Hu Husers].
  rewrite map_app. apply NoDup_app. split; [|split; [|by apply IH]].
  - rewrite map_map. simpl.
    assert (Hone : ∀ l : list (Z * Z), NoDup (map fst l) →
              NoDup (map (fun _ : Z * Z => user_id u)
                       (List.filter (fun c => bool_decide (c.1 = user_id u)) l))).
    { clear. induction l as [|[i c] l IH]; simpl; intros Hnd; [constructor|].
      apply NoDup_cons in Hnd as [Hi Hnd]. case_bool_decide as Heq; simpl; [|by apply IH].
      simpl in Heq. subst i.
      assert (List.filter (fun c => bool_decide (c.1 = user_id u)) l = []) as ->.
      { clear -Hi. induction l as [|[i c] l IH]; simpl; [done|].
        simpl in Hi. apply not_elem_of_cons in Hi as [Hne Hi].
        rewrite bool_decide_eq_false_2 by (simpl; congruence). by apply IH. }
      simpl. apply NoDup_singleton. }
    by apply Hone.
  - intros i Hi Hi'.
    apply list_elem_of_fmap in Hi as ([u1 c1] & -> & Hin1).
    apply list_elem_of_fmap in Hi' as ([u2 c2] & Heq & Hin2). simpl in *.
    apply list_elem_of_fmap in Hin1 as ([i1 c1'] & [= -> ->] & _).
    apply join_counts_spec in Hin2 as [Hu2 _].
    apply Hu. rewrite Heq. apply list_elem_of_fmap. eauto.
Qed.

Lemma imap_row_ids {A} (f : A → Z) (l : list A) :
  ∀ (k : nat),
    map fst (imap (fun i x => (f x, (k + i)%nat)) l) = map f l ∧
    map snd (imap (fun i x => (f x, (k + i)%nat)) l) = seq k (length l).
Proof.
  induction l as [|x l IH]; intros k; simpl; [done|].
  assert (Hshift : imap ((fun i x => (f x, (k + i)%nat)) ∘ S) l
                   = imap (fun i x => (f x, (S k + i)%nat)) l).
  { apply imap_ext. intros i y _. simpl. f_equal. lia. }
  rewrite Hshift, Nat.add_0_r. destruct (IH (S k)) as [-> ->]. done.
Qed.

End RosterFacts.

Section RosterStageFacts.
Import Py Pandas Prepare.
Variable set_union : list Z → list Z → list Z.
Context {Graph : Type}.
Variable from_edgelist : list (nat * nat * Z) → bool → Graph.
Variable label_components : Graph → bool → list nat * list nat.

Local Abbreviation find_nodes_in_discussion :=
  (find_nodes_in_discussion set_union from_edgelist label_components).
Local Abbreviation compute_roster :=
  (compute_roster set_union from_edgelist label_components).
Local Abbreviation group_users :=
  (group_users set_union from_edgelist label_components).

(** All that [find_nodes_in_discussion] changes in the store is the
    histogram file. *)
Lemma find_nodes_in_discussion_store (processed_path : string) (directed overwrite : bool)
  (processed processed' : processed_store) (nodes : list (Z * nat)) :
  find_nodes_in_discussion processed_path directed overwrite processed
  = Ok (nodes, processed') →
  ∃ sizes,
    processed'
    = <[processed_path </> "discussion.component_histogram.csv.gz"
        := ComponentHistogram sizes]> processed.
Proof.
  unfold Prepare.find_nodes_in_discussion.
  destruct (read_edges processed (processed_path </> "user.retweet_edges.all.json.gz"))
    as [retweet|e]; simpl; [|discriminate].
  destruct (read_edges processed (processed_path </> "user.reply_edges.all.json.gz"))
    as [reply|e]; simpl; [|discriminate].
  destruct (read_edges processed (processed_path </> "user.quote_edges.all.json.gz"))
    as [quote|e]; simpl; [|discriminate].
  destruct (for_each _ _) as [edges|e]; simpl; [|discriminate].
  destruct (label_components _ _) as [labels sizes].
  case_decide; [discriminate|].
  destruct (argmax sizes) as [largest|]; [|discriminate].
  intros [= <- <-]. eauto.
Qed.

(** The roster that [group_users] writes when it does not skip: every
    row is the last record of its user in the partitions read, joined with
    the user's total; users without a total are left out; the rows are in
    descending order of the total; and when the totals table has one row
    per user, so has the roster, and the row ids written beside it are
    the positions 0, 1, ... in roster order, as [main] reads them back. *)
Theorem group_users_roster (interim : interim_store) (data_paths : list string)
  (processed_path : string) (discussion_only directed overwrite : bool)
  (processed processed1 : processed_store) (tweet_count : list (Z * Z)) :
  let target_file := processed_path </> "user.unique.json.gz" in
  let elem_ids_target := processed_path </> "user.elem_ids.json.gz" in
  overwrite = true ∨ processed !! target_file = None
  ∨ processed !! elem_ids_target = None →
  processed !! (processed_path </> "user.total_tweets.json.gz")
  = Some (TotalTweets tweet_count) →
  group_users interim data_paths processed_path discussion_only directed overwrite
    processed = Ok processed1 →
  ∃ dd rows users elem_to_id,
    dd_from_paths interim (map (fun d => d </> "unique_users.json.gz") data_paths) None
    = Ok dd ∧
    compute unique_users_rows dd = Ok rows ∧
    processed1 !! target_file = Some (UsersUnique users) ∧
    read_elem_ids processed1 elem_ids_target = Ok elem_to_id ∧
    (∀ u c, (u, c) ∈ users →
       (user_id u, c) ∈ tweet_count
       ∧ ∃ l1 l2, rows = l1 ++ u :: l2 ∧ user_id u ∉ map user_id l2) ∧
    Sorted (on (flip Z.le) snd) users ∧
    (NoDup (map fst tweet_count) →
       NoDup (map fst elem_to_id) ∧
       map fst elem_to_id = map (fun row => user_id row.1) users ∧
       map snd elem_to_id = seq 0 (length users)).
Proof.
  intros target_file elem_ids_target Hwhy Htotal.
  unfold Prepare.group_users. fold target_file elem_ids_target.
  assert (negb overwrite
          && (exists_ processed target_file && exists_ processed elem_ids_target) = false)
    as ->.
  { unfold exists_. destruct Hwhy as [->|[Hnone|Hnone]]; [done| |]; rewrite Hnone;
      rewrite (bool_decide_eq_false_2 (is_Some None)) by (by intros [? ?]);
      by rewrite ?andb_false_r. }
  unfold Prepare.compute_roster.
  destruct (dd_from_paths interim _ None) as [dd|e]; simpl; [|discriminate].
  destruct (compute unique_users_rows dd) as [rows|e] eqn:Hrows; simpl; [|discriminate].
  set (users0 := drop_duplicates_last user_id rows).
  (* the users that reach the join, and the store they are joined in *)
  assert (Hjoin : ∀ (users1 : list user) (processed' : processed_store),
    (∀ u, u ∈ users1 → u ∈ users0) → NoDup (map user_id users1) →
    processed' !! (processed_path </> "user.total_tweets.json.gz")
    = Some (TotalTweets tweet_count) →
    (tweet_count0 ← read_total_tweets processed'
                       (processed_path </> "user.total_tweets.json.gz");
     Ok (sort_values_desc snd (join_counts users1 tweet_count0), processed'))
    ≫= (fun '(users, processed0) =>
          Ok (<[elem_ids_target := ElemIds (imap (fun i u => (user_id u.1, i)) users)]>
                (<[target_file := UsersUnique users]> processed0)))
    = Ok processed1 →
    ∃ users elem_to_id,
      processed1 !! target_file = Some (UsersUnique users) ∧
      read_elem_ids processed1 elem_ids_target = Ok elem_to_id ∧
      (∀ u c, (u, c) ∈ users →
         (user_id u, c) ∈ tweet_count
         ∧ ∃ l1 l2, rows = l1 ++ u :: l2 ∧ user_id u ∉ map user_id l2) ∧
      Sorted (on (flip Z.le) snd) users ∧
      (NoDup (map fst tweet_count) →
         NoDup (map fst elem_to_id) ∧
         map fst elem_to_id = map (fun row => user_id row.1) users ∧
         map snd elem_to_id = seq 0 (length users))).
  { intros users1 processed' Hsub Hnd Hlookup.
    unfold read_total_tweets, read_artifact. rewrite Hlookup. simpl.
    intros [= <-].
    set (users := sort_values_desc snd (join_counts users1 tweet_count)).
    assert (Hperm : users ≡ₚ join_counts users1 tweet_count)
      by apply merge_sort_Permutation.
    pose proof (imap_row_ids (fun row : user * Z => user_id row.1) users 0%nat)
      as [Hfst Hsnd].
    assert (Hdiff : target_file ≠ elem_ids_target).
    { intros Heq%path_join_inj. discriminate. }
    exists users, (to_dict (imap (fun i u => (user_id u.1, i)) users)).
    split; [by rewrite lookup_insert_ne, lookup_insert_eq|].
    split; [unfold read_elem_ids, read_artifact; by rewrite lookup_insert_eq|].
    split; [|split; [apply sort_values_desc_Sorted|]].
    - intros u c Hin. rewrite Hperm in Hin.
      apply join_counts_spec in Hin as [Hu Hc]. split; [done|].
      by apply drop_duplicates_last_spec, Hsub.
    - intros Hcounts.
      assert (Hids : NoDup (map (fun row : user * Z => user_id row.1) users)).
      { rewrite Hperm. by apply join_counts_NoDup. }
      rewrite to_dict_NoDup by (simpl in Hfst; by rewrite Hfst).
      simpl in Hfst, Hsnd. rewrite Hfst, Hsnd. done. }
  assert (Hnd0 : NoDup (map user_id users0)) by apply drop_duplicates_last_NoDup.
  destruct discussion_only.
  - destruct (find_nodes_in_discussion processed_path directed false processed)
      as [[nodes processed']|e] eqn:Hnodes; simpl; [|discriminate].
    apply find_nodes_in_discussion_store in Hnodes as [sizes ->].
    intros Hrun. exists dd, rows.
    edestruct Hjoin as (users & elem_to_id & Hspec); [| | |exact Hrun|].
    + intros u [Hu _]%elem_of_list_filter. exact Hu.
    + by apply NoDup_map_filter.
    + rewrite lookup_insert_ne; [done|]. intros Heq%path_join_inj. discriminate.
    + exists users, elem_to_id. split; [done|]. split; [done|]. exact Hspec.
  - simpl. intros Hrun. exists dd, rows.
    edestruct Hjoin as (users & elem_to_id & Hspec); [| | |exact Hrun|]; [done..|].
    exists users, elem_to_id. split; [done|]. split; [done|]. exact Hspec.
Qed.

End RosterStageFacts.

Section RosterExampleFacts.
Import Py Pandas Prepare PrepareExamples.

Lemma group_users_roster_witness :
  ∃ processed1 elem_to_id,
    group_users ascending_union GraphTool.from_edgelist GraphTool.label_components
      interim0 data_paths0 dir true true false processed0 = Ok processed1 ∧
    read_elem_ids processed1 (dir </> "user.elem_ids.json.gz") = Ok elem_to_id ∧
    NoDup (map fst elem_to_id) ∧
    map snd elem_to_id = seq 0 (length elem_to_id).
Proof.
  assert (Hreturns : match group_users ascending_union GraphTool.from_edgelist
                             GraphTool.label_components interim0 data_paths0 dir true
                             true false processed0 with
                     | Ok _ => True
                     | Raise _ => False
                     end).
  { vm_compute. exact I. }
  destruct (group_users ascending_union GraphTool.from_edgelist
              GraphTool.label_components interim0 data_paths0 dir true true false
              processed0) as [processed1|e] eqn:Hrun; [|destruct Hreturns].
  destruct (group_users_roster ascending_union GraphTool.from_edgelist
              GraphTool.label_components interim0 data_paths0 dir true true false
              processed0 processed1 [(5, 1); (3, 2); (4, 2); (2, 3); (1, 7)])
    as (dd & rows & users & elem_to_id & _ & _ & _ & Hread & _ & _ & Hdense).
  - right. left. vm_compute. reflexivity.
  - vm_compute. reflexivity.
  - exact Hrun.
  - exists processed1, elem_to_id. split; [reflexivity|]. split; [exact Hread|].
    destruct Hdense as (Hnd & Hfst & Hsnd).
    + apply (bool_decide_unpack _). vm_compute. exact I.
    + split; [exact Hnd|]. rewrite Hsnd. f_equal.
      rewrite <- (length_map snd elem_to_id), Hsnd. by rewrite length_seq.
Defined.

End RosterExampleFacts.
